(** * Seoul Metro congestion dashboard: ETL, filtering and metrics

    A shallow embedding of [src/etl.py], [src/data.py] and [src/metrics.py].

    Data frames are lists of rows.  The wide frame read from the CSV keeps
    its header and the text of its cells; the long frame is a list of typed
    records, one record type per stage of the pipeline.  Numbers that pandas
    holds as float64 are primitive binary64 floats, so that [==], NaN and
    division behave as they do in the program.  Exceptions are values of
    [exn] threaded through a small error monad.  The [print] calls of the
    scripts do not touch the data and are left out. *)

From Stdlib Require Import Floats ZArith List String Ascii Bool Lia Uint63.
From Stdlib Require Import Permutation Sorted.
Import ListNotations.

Local Open Scope string_scope.
Local Open Scope list_scope.

(** ** Exceptions *)

Inductive exn : Type :=
| FileNotFoundError (msg : string)
| ValueError (msg : string)
| KeyError (key : string)
| OverflowError (msg : string).

Inductive result (A : Type) : Type :=
| OK (a : A)
| Raise (e : exn).

Arguments OK {A} a.
Arguments Raise {A} e.

Definition bind {A B : Type} (m : result A) (k : A -> result B) : result B :=
  match m with
  | OK a => k a
  | Raise e => Raise e
  end.

Notation "x <- m ;; k" := (bind m (fun x => k))
  (at level 61, m at next level, right associativity).

Fixpoint mapM {A B : Type} (f : A -> result B) (l : list A) : result (list B) :=
  match l with
  | [] => OK []
  | a :: l' => b <- f a ;; bs <- mapM f l' ;; OK (b :: bs)
  end.

(** ** Text *)

Definition is_digit (c : ascii) : bool :=
  let n := nat_of_ascii c in (48 <=? n)%nat && (n <=? 57)%nat.

(** The longest run of decimal digits at the start of [s], and what follows:
    what [\d+] consumes (ASCII digits). *)
Fixpoint span_digits (s : string) : string * string :=
  match s with
  | EmptyString => (EmptyString, EmptyString)
  | String c s' =>
      if is_digit c
      then let (d, r) := span_digits s' in (String c d, r)
      else (EmptyString, s)
  end.

Fixpoint strip_prefix (p s : string) : option string :=
  match p with
  | EmptyString => Some s
  | String a p' =>
      match s with
      | EmptyString => None
      | String b s' => if Ascii.eqb a b then strip_prefix p' s' else None
      end
  end.

Definition is_empty (s : string) : bool :=
  match s with EmptyString => true | _ => false end.

(** [re.match(r'(\d+)시(\d+)분', s)]: anchored at the start only; the two
    groups when it matches. *)
Definition match_time (s : string) : option (string * string) :=
  let (h, r1) := span_digits s in
  if is_empty h then None else
  match strip_prefix "시" r1 with
  | None => None
  | Some r2 =>
      let (m, r3) := span_digits r2 in
      if is_empty m then None else
      match strip_prefix "분" r3 with
      | None => None
      | Some _ => Some (h, m)
      end
  end.

(** [int(s)] on a run of digits. *)
Definition digit_value (c : ascii) : Z := Z.of_nat (nat_of_ascii c) - 48.

Fixpoint int_digits (acc : Z) (s : string) : Z :=
  match s with
  | EmptyString => acc
  | String c s' => int_digits (10 * acc + digit_value c) s'
  end.

Definition all_digits (s : string) : bool :=
  let (d, r) := span_digits s in negb (is_empty d) && is_empty r.

(** Decimal digits of a natural number, most significant first. *)
Fixpoint digits_fuel (fuel : nat) (n : N) (acc : string) : string :=
  match fuel with
  | O => acc
  | S f =>
      let acc' := String (ascii_of_N (48 + N.modulo n 10)) acc in
      if (n <? 10)%N then acc' else digits_fuel f (N.div n 10) acc'
  end.

Definition str_of_N (n : N) : string :=
  digits_fuel (S (N.to_nat (N.log2 n))) n EmptyString.

(** [f"{n:02d}"] for [n >= 0]. *)
Definition fmt02d (n : Z) : string :=
  let s := str_of_N (Z.to_N n) in
  if (String.length s <? 2)%nat then String "0" s else s.

(** [s.split(':')[0]]. *)
Fixpoint before_colon (s : string) : string :=
  match s with
  | EmptyString => EmptyString
  | String c s' => if Ascii.eqb c ":" then EmptyString else String c (before_colon s')
  end.

(** [str.isspace] on ASCII: tab to carriage return, the four separators
    28..31 and the space.  Whitespace outside ASCII is not modelled. *)
Definition is_space (c : ascii) : bool :=
  let n := nat_of_ascii c in
  ((9 <=? n)%nat && (n <=? 13)%nat) || ((28 <=? n)%nat && (n <=? 32)%nat).

Fixpoint lstrip (s : string) : string :=
  match s with
  | EmptyString => EmptyString
  | String c s' => if is_space c then lstrip s' else s
  end.

Fixpoint rstrip (s : string) : string :=
  match s with
  | EmptyString => EmptyString
  | String c s' =>
      let t := rstrip s' in
      if is_empty t && is_space c then EmptyString else String c t
  end.

Definition strip (s : string) : string := rstrip (lstrip s).

Definition mem (s : string) (l : list string) : bool :=
  existsb (String.eqb s) l.

(** ** Ordering and sorting

    [sort_values] on several keys is a stable sort on the lexicographic
    order of the keys; it is modelled by a stable insertion sort over a
    three-way comparison. *)

Definition lex (c1 c2 : comparison) : comparison :=
  match c1 with
  | Eq => c2
  | _ => c1
  end.

Definition le_of {A : Type} (cmp : A -> A -> comparison) (a b : A) : bool :=
  match cmp a b with
  | Gt => false
  | _ => true
  end.

Section Sorting.
Context {A : Type}.
Variable cmp : A -> A -> comparison.

Fixpoint insert (x : A) (l : list A) : list A :=
  match l with
  | [] => [x]
  | y :: l' => if le_of cmp x y then x :: l else y :: insert x l'
  end.

Definition sort_values (l : list A) : list A := fold_right insert [] l.

Definition antisym_cmp : Prop :=
  forall a b, cmp a b = CompOpp (cmp b a).
End Sorting.

(** ** The wide frame

    [pd.read_csv] gives a header of distinct names and rows of cells.  A
    cell is kept as its text: a numeric cell rendered back by [astype(str)]
    parses to the same number, and an empty cell reads as NaN either way. *)

Record WideFrame : Type := {
  columns : list string;
  rows : list (list string)
}.

Fixpoint col_index (c : string) (cols : list string) : option nat :=
  match cols with
  | [] => None
  | c' :: cols' =>
      if String.eqb c c' then Some O
      else option_map S (col_index c cols')
  end.

Definition cell (row : list string) (i : nat) : string := nth i row "".

(** [df[c]] position, or the [KeyError] pandas raises for an unknown label. *)
Definition locate (df : WideFrame) (c : string) : result nat :=
  match col_index c (columns df) with
  | Some i => OK i
  | None => Raise (KeyError c)
  end.

(** ** etl.py *)

Inductive encoding : Type := cp949 | utf_8.

Inductive read_outcome : Type :=
| Parsed (df : WideFrame)
| UnicodeDecodeError.

(** A file of [data/raw]: what [pd.read_csv] does with it under each
    encoding. *)
Definition RawFile : Type := encoding -> read_outcome.

Definition find_csv_file (raw_data_dir : list RawFile) : result RawFile :=
  match raw_data_dir with
  | [] => Raise (FileNotFoundError "data/raw 디렉토리에 CSV 파일이 없습니다")
  | f :: _ => OK f
  end.

Fixpoint load_csv_from (encodings : list encoding) (filepath : RawFile)
  : result WideFrame :=
  match encodings with
  | [] => Raise (ValueError "CSV 파일 인코딩을 인식할 수 없습니다.")
  | e :: es =>
      match filepath e with
      | Parsed df => OK df
      | UnicodeDecodeError => load_csv_from es filepath
      end
  end.

Definition load_csv (filepath : RawFile) : result WideFrame :=
  load_csv_from [cp949; utf_8] filepath.

Definition time_pattern (col : string) : bool :=
  match match_time col with
  | Some _ => true
  | None => false
  end.

Definition get_time_columns (df : WideFrame) : list string :=
  filter time_pattern (columns df).

Definition normalize_time_slot (time_str : string) : string :=
  match match_time time_str with
  | Some (h, m) =>
      let hour := int_digits 0 h in
      let minute := int_digits 0 m in
      fmt02d hour ++ ":" ++ fmt02d minute
  | None => time_str
  end.

Record TimeEntry : Type := {
  normalized : string;
  order : Z
}.

(** A dict keyed by the raw header; a later assignment to a key hides the
    earlier one. *)
Definition TimeMap : Type := list (string * TimeEntry).

Definition dict_set (m : TimeMap) (k : string) (v : TimeEntry) : TimeMap :=
  (k, v) :: m.

Fixpoint dict_get (m : TimeMap) (k : string) : result TimeEntry :=
  match m with
  | [] => Raise (KeyError k)
  | (k', v) :: m' => if String.eqb k k' then OK v else dict_get m' k
  end.

Fixpoint enumerate_from {A : Type} (i : Z) (l : list A) : list (Z * A) :=
  match l with
  | [] => []
  | a :: l' => (i, a) :: enumerate_from (i + 1) l'
  end.

Definition create_time_order_map (time_cols : list string) : TimeMap :=
  fold_left
    (fun time_map '(idx, time_col) =>
       dict_set time_map time_col
         {| normalized := normalize_time_slot time_col; order := idx |})
    (enumerate_from 0 time_cols) [].

(** The five identifier columns, under the names [rename_columns] gives
    them: 요일구분, 호선, 역번호, 출발역, 상하구분. *)
Record IdCols : Type := {
  weekday : string;
  line : string;
  station_id : string;
  station_name : string;
  direction : string
}.

Definition id_cols : list string :=
  ["요일구분"; "호선"; "역번호"; "출발역"; "상하구분"].

Record MeltRow : Type := {
  id_vars : IdCols;
  time_slot_raw : string;
  congestion_raw : string
}.

(** [df.melt(id_vars, value_vars, ...)]: one block of rows per value
    column, in the order of [value_vars]; inside a block the rows of the
    frame in their order.  An unknown label raises [KeyError], and melt
    refuses a frame that already has a column named as [value_name]. *)
Definition unpivot_time_columns (df : WideFrame) (time_cols : list string)
  : result (list MeltRow) :=
  if mem "congestion_raw" (columns df)
  then Raise (ValueError "value_name (congestion_raw) cannot match an element in the DataFrame columns.")
  else
  i_weekday <- locate df "요일구분" ;;
  i_line <- locate df "호선" ;;
  i_station_id <- locate df "역번호" ;;
  i_station_name <- locate df "출발역" ;;
  i_direction <- locate df "상하구분" ;;
  value_vars <- mapM (fun c => j <- locate df c ;; OK (c, j)) time_cols ;;
  OK (flat_map
        (fun '(c, j) =>
           map (fun row =>
                  {| id_vars := {| weekday := cell row i_weekday;
                                   line := cell row i_line;
                                   station_id := cell row i_station_id;
                                   station_name := cell row i_station_name;
                                   direction := cell row i_direction |};
                     time_slot_raw := c;
                     congestion_raw := cell row j |})
               (rows df))
        value_vars).

(** After [clean_congestion_values]: [congestion_raw] trimmed, and the new
    column [congestion] ([parsed]). *)
Record CleanRow : Type := {
  melted : MeltRow;
  parsed : float
}.

(** After [add_time_features]: the new columns [time_slot] ([slot]),
    [time_order] ([ord]), [hour] ([hr]) and [period] ([per]). *)
Record TimedRow : Type := {
  cleaned : CleanRow;
  slot : string;
  ord : Z;
  hr : Z;
  per : string
}.

(** After [handle_missing_values]: the new column [is_missing] ([flag]). *)
Record FlaggedRow : Type := {
  timed : TimedRow;
  flag : bool
}.

(** A row of the persisted table, the columns of [cols_to_keep]. *)
Record LongRecord : Type := {
  ids : IdCols;
  time_slot : string;
  time_order : Z;
  congestion : float;
  hour : Z;
  period : string;
  is_missing : bool
}.

Definition get_period (hour : Z) : string :=
  if (0 <=? hour)%Z && (hour <? 1)%Z then "심야"
  else if (5 <=? hour)%Z && (hour <? 7)%Z then "새벽"
  else if (7 <=? hour)%Z && (hour <? 9)%Z then "출근"
  else if (9 <=? hour)%Z && (hour <? 12)%Z then "오전"
  else if (12 <=? hour)%Z && (hour <? 18)%Z then "오후"
  else if (18 <=? hour)%Z && (hour <? 20)%Z then "퇴근"
  else if (20 <=? hour)%Z && (hour <? 24)%Z then "저녁"
  else "기타".

(** [astype(int)] on a text cell made of digits (the part of a normalized
    time slot before the colon is one): its value as an int64. *)
Definition astype_int (s : string) : result Z :=
  if all_digits s then
    let v := int_digits 0 s in
    if (v <? 2 ^ 63)%Z then OK v
    else Raise (OverflowError "Python int too large to convert to C long")
  else Raise (ValueError "invalid literal for int() with base 10").

Definition cmp_persisted (a b : LongRecord) : comparison :=
  lex (String.compare (line (ids a)) (line (ids b)))
  (lex (String.compare (station_id (ids a)) (station_id (ids b)))
  (lex (String.compare (weekday (ids a)) (weekday (ids b)))
  (lex (String.compare (direction (ids a)) (direction (ids b)))
       (Z.compare (time_order a) (time_order b))))).

Section ETL.
(** [pd.to_numeric(., errors='coerce')] on one text cell: the number it
    denotes, NaN when it denotes none. *)
Variable to_numeric : string -> float.

Definition clean_congestion_values (df : list MeltRow) : list CleanRow :=
  map (fun r =>
         let raw := strip (congestion_raw r) in
         {| melted := {| id_vars := id_vars r;
                         time_slot_raw := time_slot_raw r;
                         congestion_raw := raw |};
            parsed := to_numeric raw |})
      df.

Definition add_time_features (df : list CleanRow) (time_map : TimeMap)
  : result (list TimedRow) :=
  mapM (fun r =>
          e_slot <- dict_get time_map (time_slot_raw (melted r)) ;;
          e_order <- dict_get time_map (time_slot_raw (melted r)) ;;
          let time_slot := normalized e_slot in
          hour <- astype_int (before_colon time_slot) ;;
          OK {| cleaned := r;
                slot := time_slot;
                ord := order e_order;
                hr := hour;
                per := get_period hour |})
       df.

Definition handle_missing_values (df : list TimedRow) : list FlaggedRow :=
  map (fun r =>
         {| timed := r;
            flag := PrimFloat.eqb (parsed (cleaned r)) 0%float
                    || PrimFloat.is_nan (parsed (cleaned r)) |})
      df.

(** Renaming the identifier columns changes no cell; [IdCols] already
    carries the new names. *)
Definition rename_columns (df : list FlaggedRow) : list FlaggedRow := df.

(** [df[cols_to_keep]]: the raw columns are dropped. *)
Definition keep_cols (r : FlaggedRow) : LongRecord :=
  {| ids := id_vars (melted (cleaned (timed r)));
     time_slot := slot (timed r);
     time_order := ord (timed r);
     congestion := parsed (cleaned (timed r));
     hour := hr (timed r);
     period := per (timed r);
     is_missing := flag r |}.

(** The table written to the parquet file. *)
Definition save_parquet (df : list FlaggedRow) : list LongRecord :=
  sort_values cmp_persisted (map keep_cols df).

(** Steps 2 to 10 of [main]; [validate_data] only reads and prints. *)
Definition transform (df : WideFrame) : result (list LongRecord) :=
  let time_cols := get_time_columns df in
  let time_map := create_time_order_map time_cols in
  df_long <- unpivot_time_columns df time_cols ;;
  let df_long := clean_congestion_values df_long in
  df_long <- add_time_features df_long time_map ;;
  let df_long := handle_missing_values df_long in
  let df_long := rename_columns df_long in
  OK (save_parquet df_long).

(** [main]: what is persisted, or the exception that ends the job.
    Saving is the last step, so a raised exception leaves nothing
    written. *)
Definition main (raw_data_dir : list RawFile) : result (list LongRecord) :=
  raw_data_path <- find_csv_file raw_data_dir ;;
  df <- load_csv raw_data_path ;;
  transform df.
End ETL.

(** ** Cells and labelled rows

    [df[cols]] selects columns by label; a selected row is the list of its
    labelled cells, in the order of [cols]. *)

Inductive value : Type :=
| VStr (s : string)
| VInt (z : Z)
| VFloat (x : float)
| VBool (b : bool).

Definition Row : Type := list (string * value).

Definition column (c : string) : option (LongRecord -> value) :=
  if String.eqb c "weekday" then Some (fun r => VStr (weekday (ids r)))
  else if String.eqb c "line" then Some (fun r => VStr (line (ids r)))
  else if String.eqb c "station_id" then Some (fun r => VStr (station_id (ids r)))
  else if String.eqb c "station_name" then Some (fun r => VStr (station_name (ids r)))
  else if String.eqb c "direction" then Some (fun r => VStr (direction (ids r)))
  else if String.eqb c "time_slot" then Some (fun r => VStr (time_slot r))
  else if String.eqb c "time_order" then Some (fun r => VInt (time_order r))
  else if String.eqb c "congestion" then Some (fun r => VFloat (congestion r))
  else if String.eqb c "hour" then Some (fun r => VInt (hour r))
  else if String.eqb c "period" then Some (fun r => VStr (period r))
  else if String.eqb c "is_missing" then Some (fun r => VBool (is_missing r))
  else None.

(** The columns of the persisted table: [cols_to_keep] of [save_parquet]. *)
Definition cols_to_keep : list string :=
  ["weekday"; "line"; "station_id"; "station_name"; "direction";
   "time_slot"; "time_order"; "congestion"; "hour"; "period"; "is_missing"].

Definition select_row (cols : list string) (r : LongRecord) : result Row :=
  mapM (fun c =>
          match column c with
          | Some get => OK (c, get r)
          | None => Raise (KeyError c)
          end)
       cols.

Definition select (cols : list string) (df : list LongRecord) : result (list Row) :=
  mapM (select_row cols) df.

Fixpoint lookup (c : string) (row : Row) : option value :=
  match row with
  | [] => None
  | (c', v) :: row' => if String.eqb c c' then Some v else lookup c row'
  end.

(** Order of two cells of a text column. *)
Definition cmp_cell (a b : option value) : comparison :=
  match a, b with
  | Some (VStr s), Some (VStr t) => String.compare s t
  | _, _ => Eq
  end.

Fixpoint cmp_by (by_cols : list string) (a b : Row) : comparison :=
  match by_cols with
  | [] => Eq
  | c :: cs => lex (cmp_cell (lookup c a) (lookup c b)) (cmp_by cs a b)
  end.

(** ** data.py *)

Definition in_range (time_range : Z * Z) (r : LongRecord) : bool :=
  let (start_order, end_order) := time_range in
  (start_order <=? time_order r)%Z && (time_order r <=? end_order)%Z.

(** [x and len(x) > 0] for a list argument [x]: [None] and the empty list
    are falsy, and only then is the length looked at. *)
Definition restricts (x : option (list string)) : option (list string) :=
  match x with
  | None => None
  | Some [] => None
  | Some ((_ :: _) as l) => if (0 <? List.length l)%nat then Some l else None
  end.

Definition filter_data (df : list LongRecord)
    (weekday_arg : option string) (lines stations directions : option (list string))
    (time_range : option (Z * Z)) : list LongRecord :=
  let filtered := df in
  let filtered :=
    match weekday_arg with
    | Some w =>
        if negb (is_empty w) && negb (String.eqb w "전체")
        then filter (fun r => String.eqb (weekday (ids r)) w) filtered
        else filtered
    | None => filtered
    end in
  let filtered :=
    match restricts lines with
    | Some l => filter (fun r => mem (line (ids r)) l) filtered
    | None => filtered
    end in
  let filtered :=
    match restricts stations with
    | Some l => filter (fun r => mem (station_name (ids r)) l) filtered
    | None => filtered
    end in
  let filtered :=
    match restricts directions with
    | Some l => filter (fun r => mem (direction (ids r)) l) filtered
    | None => filtered
    end in
  match time_range with
  | Some tr => filter (in_range tr) filtered
  | None => filtered
  end.

Definition download_cols : list string :=
  ["weekday"; "line"; "station_name"; "direction"; "time_slot";
   "congestion"; "hour"; "period"].

Definition download_sort_keys : list string :=
  ["line"; "station_name"; "weekday"; "direction"; "time_slot"].

Definition prepare_download_data (df : list LongRecord) : result (list Row) :=
  download_df <- select download_cols df ;;
  OK (sort_values (cmp_by download_sort_keys) download_df).

(** ** Reductions over float columns

    pandas reductions skip NaN.  How a block of numbers is summed (pairwise
    in numpy, compensated in the groupby kernels) is left open: the two
    summations are parameters of the metrics below. *)

(** A row count as a float64 (counts stay far below 2^63). *)
Definition of_nat (n : nat) : float :=
  PrimFloat.of_uint63 (Uint63.of_Z (Z.of_nat n)).

Definition notna (x : float) : bool := negb (PrimFloat.is_nan x).

Definition dropna (v : list float) : list float := filter notna v.

Definition fcmp (a b : float) : comparison :=
  match PrimFloat.compare a b with
  | FEq => Eq
  | FLt => Lt
  | FGt => Gt
  | FNotComparable => Eq
  end.

Definition fmax (a b : float) : float := if PrimFloat.ltb a b then b else a.
Definition fmin (a b : float) : float := if PrimFloat.ltb b a then b else a.

(** [max] and [min] of a column: NaN when nothing is left after [dropna]. *)
Definition reduce_max (v : list float) : float :=
  match dropna v with
  | [] => nan
  | x :: xs => fold_left fmax xs x
  end.

Definition reduce_min (v : list float) : float :=
  match dropna v with
  | [] => nan
  | x :: xs => fold_left fmin xs x
  end.

Section Reductions.
Variable sum : list float -> float.

Definition reduce_sum (v : list float) : float := sum (dropna v).

Definition reduce_mean (v : list float) : float :=
  match dropna v with
  | [] => nan
  | x => (sum x / of_nat (List.length x))%float
  end.

Definition reduce_median (v : list float) : float :=
  let x := sort_values fcmp (dropna v) in
  let n := List.length x in
  if (n =? 0)%nat then nan
  else if Nat.odd n then nth (n / 2) x nan
  else ((nth (n / 2 - 1) x nan + nth (n / 2) x nan) / 2)%float.

(** [Series.std()], with its default [ddof=1]: the count of the values
    must exceed [ddof], otherwise the result is NaN. *)
Definition reduce_std (v : list float) : float :=
  let ddof := 1%nat in
  let x := dropna v in
  let count := List.length x in
  if (count <=? ddof)%nat then nan
  else
    let avg := (sum x / of_nat count)%float in
    let sqr := map (fun a => ((avg - a) * (avg - a))%float) x in
    PrimFloat.sqrt (sum sqr / of_nat (count - ddof))%float.
End Reductions.

(** ** groupby, nlargest *)

Section GroupBy.
Context {A K : Type}.
Variable cmp : K -> K -> comparison.
Variable key : A -> K.

Definition same_key (k k' : K) : bool :=
  match cmp k k' with
  | Eq => true
  | _ => false
  end.

(** The distinct keys, each once. *)
Fixpoint unique (l : list K) : list K :=
  match l with
  | [] => []
  | k :: l' => k :: filter (fun k' => negb (same_key k k')) (unique l')
  end.

(** Groups come in ascending key order; a group keeps its rows in frame
    order. *)
Definition groupby (df : list A) : list (K * list A) :=
  map (fun k => (k, filter (fun a => same_key k (key a)) df))
      (sort_values cmp (unique (map key df))).
End GroupBy.

(** [Series.nlargest(n)]: nothing for [n <= 0]; otherwise the first [n] of
    the values in descending order, ties in their original order, the NaN
    entries after them. *)
Definition nlargest {K : Type} (n : Z) (s : list (K * float)) : list (K * float) :=
  if (n <=? 0)%Z then []
  else
    let dropped := filter (fun e => notna (snd e)) s in
    let nan_index := filter (fun e => PrimFloat.is_nan (snd e)) s in
    firstn (Z.to_nat n)
           (sort_values (fun a b => fcmp (snd b) (snd a)) dropped ++ nan_index).

(** ** metrics.py *)

Module Stats.
Record t : Type := {
  count : nat;
  mean : float;
  median : float;
  std : float;
  min : float;
  max : float;
  missing_pct : float
}.
End Stats.

Definition cmp_station (a b : string * string) : comparison :=
  lex (String.compare (fst a) (fst b)) (String.compare (snd a) (snd b)).

Definition period_order : list string :=
  ["새벽"; "출근"; "오전"; "오후"; "퇴근"; "저녁"; "심야"].

(** [pd.Categorical(values, categories, ordered=True)] on one value: its
    position among the categories; a value outside them becomes NaN. *)
Fixpoint category_code (categories : list string) (v : string) : option nat :=
  match categories with
  | [] => None
  | c :: cs =>
      if String.eqb v c then Some O else option_map S (category_code cs v)
  end.

Definition Categorical (categories : list string) (v : string) : option string :=
  match category_code categories v with
  | Some _ => Some v
  | None => None
  end.

Definition cmp_category (categories : list string) (a b : option string) : comparison :=
  match a, b with
  | Some x, Some y =>
      match category_code categories x, category_code categories y with
      | Some i, Some j => Nat.compare i j
      | _, _ => Eq
      end
  | _, _ => Eq
  end.

Definition is_none {A : Type} (o : option A) : bool :=
  match o with
  | None => true
  | Some _ => false
  end.

(** [sort_values] on a categorical column: the rows with a category in
    category order, then the NaN rows in their original order. *)
Definition sort_by_category {B : Type} (categories : list string)
    (df : list (option string * B)) : list (option string * B) :=
  sort_values (fun a b => cmp_category categories (fst a) (fst b))
              (filter (fun e => negb (is_none (fst e))) df)
  ++ filter (fun e => is_none (fst e)) df.

Definition valid (df : list LongRecord) : list LongRecord :=
  filter (fun r => negb (is_missing r)) df.

Section Metrics.
Variable series_sum : list float -> float.
Variable group_sum : list float -> float.

Definition get_top_n_stations (df : list LongRecord) (n : Z)
    (time_range : option (Z * Z)) (aggregate : string)
  : list ((string * string) * float) :=
  let valid_df := valid df in
  if (List.length valid_df =? 0)%nat then []
  else
    let valid_df :=
      match time_range with
      | Some tr => filter (in_range tr) valid_df
      | None => valid_df
      end in
    let groups :=
      groupby cmp_station (fun r => (station_name (ids r), line (ids r))) valid_df in
    let agg (f : list float -> float) :=
      map (fun g => (fst g, f (map congestion (snd g)))) groups in
    let ranking :=
      if String.eqb aggregate "max" then agg reduce_max
      else if String.eqb aggregate "mean" then agg (reduce_mean group_sum)
      else if String.eqb aggregate "sum" then agg (reduce_sum group_sum)
      else agg reduce_max in
    nlargest n ranking.

Definition get_average_congestion_by_period (df : list LongRecord)
  : list (option string * float) :=
  let valid_df := valid df in
  if (List.length valid_df =? 0)%nat then []
  else
    let period_avg :=
      map (fun g => (fst g, reduce_mean group_sum (map congestion (snd g))))
          (groupby String.compare period valid_df) in
    let period_avg :=
      map (fun e => (Categorical period_order (fst e), snd e)) period_avg in
    sort_by_category period_order period_avg.

Definition get_congestion_stats (df : list LongRecord) : Stats.t :=
  let valid_df := valid df in
  if (List.length valid_df =? 0)%nat then
    {| Stats.count := 0;
       Stats.mean := 0%float;
       Stats.median := 0%float;
       Stats.std := 0%float;
       Stats.min := 0%float;
       Stats.max := 0%float;
       Stats.missing_pct := 100%float |}
  else
    let congestion := map congestion valid_df in
    let missing_pct :=
      (of_nat (List.length (filter is_missing df)) / of_nat (List.length df) * 100)%float in
    {| Stats.count := List.length valid_df;
       Stats.mean := reduce_mean series_sum congestion;
       Stats.median := reduce_median congestion;
       Stats.std := reduce_std series_sum congestion;
       Stats.min := reduce_min congestion;
       Stats.max := reduce_max congestion;
       Stats.missing_pct := missing_pct |}.
End Metrics.

(** ** data.py: options and the slot-to-order mapping *)

Module FilterOptions.
Record t : Type := {
  weekdays : list string;
  lines : list string;
  stations : list string;
  directions : list string;
  time_slots : list string
}.
End FilterOptions.

(** [sorted(column.unique().tolist())]. *)
Definition sorted_unique (v : list string) : list string :=
  sort_values String.compare (unique String.compare v).

Definition cmp_slot (a b : LongRecord) : comparison :=
  String.compare (time_slot a) (time_slot b).

Definition cmp_order (a b : LongRecord) : comparison :=
  Z.compare (time_order a) (time_order b).

(** The time slots are sorted on the [time_order] of the first row that
    has the slot ([.iloc[0]]), by a stable sort: the first row of each slot,
    in order of appearance, is sorted on its [time_order] and its slot
    kept. *)
Definition get_filter_options (df : list LongRecord) : FilterOptions.t :=
  {| FilterOptions.weekdays := sorted_unique (map (fun r => weekday (ids r)) df);
     FilterOptions.lines := sorted_unique (map (fun r => line (ids r)) df);
     FilterOptions.stations := sorted_unique (map (fun r => station_name (ids r)) df);
     FilterOptions.directions := sorted_unique (map (fun r => direction (ids r)) df);
     FilterOptions.time_slots :=
       map time_slot (sort_values cmp_order (unique cmp_slot df)) |}.

Definition cmp_pair (a b : string * Z) : comparison :=
  lex (String.compare (fst a) (fst b)) (Z.compare (snd a) (snd b)).

(** [to_dict()] of a column indexed by time slot: the pairs are assigned in
    order, so the last pair of a slot is the one looked up. *)
Definition OrderMap : Type := list (string * Z).

Definition to_dict (pairs : list (string * Z)) : OrderMap := rev pairs.

Fixpoint order_of (m : OrderMap) (k : string) : result Z :=
  match m with
  | [] => Raise (KeyError k)
  | (k', v) :: m' => if String.eqb k k' then OK v else order_of m' k
  end.

Definition get_time_order_mapping (df : list LongRecord) : OrderMap :=
  to_dict (unique cmp_pair (map (fun r => (time_slot r, time_order r)) df)).

(** ** metrics.py: the maximum and the peak hours *)

Module MaxInfo.
Record t : Type := {
  max_value : float;
  time_slot : string;
  station_name : string;
  line : string;
  direction : string;
  weekday : string
}.
End MaxInfo.

(** [idxmax] skips NaN by reading it as minus infinity, and gives the
    first position of the maximum. *)
Definition fillna_neg_inf (x : float) : float :=
  if PrimFloat.is_nan x then neg_infinity else x.

Fixpoint argmax_by {A : Type} (key : A -> float) (best : A) (rest : list A) : A :=
  match rest with
  | [] => best
  | x :: rest' =>
      if PrimFloat.ltb (key best) (key x)
      then argmax_by key x rest'
      else argmax_by key best rest'
  end.

(** The row [valid_df.loc[valid_df['congestion'].idxmax()]]; there is none
    when every value is NaN. *)
Definition idxmax_row (valid_df : list LongRecord) : option LongRecord :=
  match valid_df with
  | [] => None
  | r :: rs =>
      if forallb (fun x => PrimFloat.is_nan (congestion x)) valid_df then None
      else Some (argmax_by (fun x => fillna_neg_inf (congestion x)) r rs)
  end.

(** With only NaN values there is no maximal label and the row lookup
    fails (a [KeyError] on the NaN label; newer pandas raise from [idxmax]
    itself). *)
Definition get_max_congestion_info (df : list LongRecord) : result MaxInfo.t :=
  let valid_df := valid df in
  if (List.length valid_df =? 0)%nat then
    OK {| MaxInfo.max_value := 0%float;
          MaxInfo.time_slot := "-";
          MaxInfo.station_name := "-";
          MaxInfo.line := "-";
          MaxInfo.direction := "-";
          MaxInfo.weekday := "-" |}
  else
    match idxmax_row valid_df with
    | None => Raise (KeyError "nan")
    | Some max_row =>
        OK {| MaxInfo.max_value := congestion max_row;
              MaxInfo.time_slot := time_slot max_row;
              MaxInfo.station_name := station_name (ids max_row);
              MaxInfo.line := line (ids max_row);
              MaxInfo.direction := direction (ids max_row);
              MaxInfo.weekday := weekday (ids max_row) |}
    end.

(** A row of [time_stats]: a time slot with the mean and the maximum of
    its congestion values and the [time_order] of its first row. *)
Record TimeStat : Type := {
  stat_slot : string;
  avg_congestion : float;
  max_congestion : float;
  stat_order : option Z
}.

Definition cmp_stat_order (a b : TimeStat) : comparison :=
  match stat_order a, stat_order b with
  | Some x, Some y => Z.compare x y
  | _, _ => Eq
  end.

Section Peaks.
Variable series_sum : list float -> float.
Variable group_sum : list float -> float.

Definition time_stats_of (valid_df : list LongRecord) : list TimeStat :=
  map (fun g =>
         {| stat_slot := fst g;
            avg_congestion := reduce_mean group_sum (map congestion (snd g));
            max_congestion := reduce_max (map congestion (snd g));
            stat_order := option_map time_order (hd_error (snd g)) |})
      (groupby String.compare time_slot valid_df).

(** The slots whose mean reaches the threshold, sorted on the time order of
    their first row (rows without one last; equal orders keep the order of
    the slots). *)
Definition get_peak_hours (df : list LongRecord) (threshold : option float)
  : list (string * float * float) :=
  let valid_df := valid df in
  if (List.length valid_df =? 0)%nat then []
  else
    let time_stats := time_stats_of valid_df in
    let threshold :=
      match threshold with
      | None =>
          (reduce_mean series_sum (map congestion valid_df)
           + reduce_std series_sum (map congestion valid_df))%float
      | Some t => t
      end in
    let peak_hours :=
      filter (fun s => PrimFloat.leb threshold (avg_congestion s)) time_stats in
    let peak_hours :=
      sort_values cmp_stat_order
        (filter (fun s => negb (is_none (stat_order s))) peak_hours)
      ++ filter (fun s => is_none (stat_order s)) peak_hours in
    map (fun s => (stat_slot s, avg_congestion s, max_congestion s)) peak_hours.
End Peaks.

(** ** etl.py: the validation report

    [validate_data] only prints; the record holds the values it prints.  It
    reads columns that the persisted table keeps. *)




Module Report.
Record t : Type := {
  unique_time_slots : nat;
  unique_lines : list string;
  unique_weekdays : list string;
  unique_stations : nat;
  group_counts : list nat;
  row_count_consistent : bool;
  congestion_min : float;
  congestion_max : float;
  over_100 : nat;
  over_100_pct : float
}.
End Report.



(** ** Vocabulary of the statements *)

(** The frame carries the five identifier columns, and no column under the
    name the reshaping gives to the value column. *)
Definition has_id_cols (df : WideFrame) : Prop :=
  (forall c, In c id_cols -> In c (columns df))
  /\ mem "congestion_raw" (columns df) = false.

(** The cells that [df[cols]] keeps of one record. *)
Definition projection (cols : list string) (r : LongRecord) : Row :=
  flat_map (fun c =>
              match column c with
              | Some get => [(c, get r)]
              | None => []
              end)
           cols.

(** The text of the export's sort keys, in key order, and the
    lexicographic order of two such key lists. *)
Definition sort_key (r : LongRecord) : list string :=
  [line (ids r); station_name (ids r); weekday (ids r); direction (ids r);
   time_slot r].

Fixpoint cmp_keys (a b : list string) : comparison :=
  match a, b with
  | x :: a', y :: b' => lex (String.compare x y) (cmp_keys a' b')
  | _, _ => Eq
  end.

(** The mean of the valid rows of one period. *)
Definition period_mean (group_sum : list float -> float) (df : list LongRecord)
    (p : string) : float :=
  reduce_mean group_sum
    (map congestion (filter (fun r => String.eqb p (period r)) (valid df))).

(** ** Sample data *)

(** A parser standing for [to_numeric] on the cells of the samples. *)
Definition sample_to_numeric (s : string) : float :=
  if String.eqb s "12.5" then 12.5%float
  else if String.eqb s "80" then 80%float
  else if String.eqb s "0" then 0%float
  else if String.eqb s "0.0" then 0%float
  else nan.

(** Sums taken from left to right. *)
Definition sample_sum (v : list float) : float :=
  fold_left PrimFloat.add v 0%float.

Definition sample_wide : WideFrame :=
  {| columns := ["요일구분"; "호선"; "역번호"; "출발역"; "상하구분";
                 "5시30분"; "6시00분"; "1시00분"];
     rows := [["평일"; "1호선"; "150"; "서울역"; "상선"; " 12.5"; "0"; "x"];
              ["평일"; "2호선"; "201"; "시청"; "내선"; "80"; ""; " 0.0 "]] |}.

(** A source file whose header has no time-slot column. *)
Definition sample_ids_only : WideFrame :=
  {| columns := ["요일구분"; "호선"; "역번호"; "출발역"; "상하구분"];
     rows := [["평일"; "1호선"; "150"; "서울역"; "상선"]] |}.

Definition sample_record (station ln slot_text : string) (slot_order : Z)
    (c : float) (h : Z) (m : bool) : LongRecord :=
  {| ids := {| weekday := "평일"; line := ln; station_id := "150";
               station_name := station; direction := "상선" |};
     time_slot := slot_text;
     time_order := slot_order;
     congestion := c;
     hour := h;
     period := get_period h;
     is_missing := m |}.

(** Ten rows, three of them missing. *)
Definition sample_view : list LongRecord :=
  [ sample_record "서울역" "1호선" "05:30" 0 12.5%float 5 false;
    sample_record "서울역" "1호선" "06:00" 1 0%float 6 true;
    sample_record "서울역" "1호선" "07:00" 2 80%float 7 false;
    sample_record "서울역" "1호선" "08:00" 3 95.5%float 8 false;
    sample_record "서울역" "1호선" "00:30" 4 nan 0 true;
    sample_record "시청" "2호선" "05:30" 0 20%float 5 false;
    sample_record "시청" "2호선" "06:00" 1 0%float 6 true;
    sample_record "시청" "2호선" "07:00" 2 110%float 7 false;
    sample_record "시청" "2호선" "02:00" 3 30%float 2 false;
    sample_record "시청" "2호선" "00:30" 4 5%float 0 false ].

(** One valid row, in the small hours. *)
Definition sample_night : list LongRecord :=
  [ sample_record "시청" "2호선" "02:00" 3 30%float 2 false ].

(** The predicate the filters of [filter_data] amount to on one row. *)
Definition passes (weekday_arg : option string)
    (lines stations directions : option (list string))
    (time_range : option (Z * Z)) (r : LongRecord) : bool :=
  match weekday_arg with
  | Some w => is_empty w || String.eqb w "전체" || String.eqb (weekday (ids r)) w
  | None => true
  end
  && match lines with
     | Some ((_ :: _) as l) => mem (line (ids r)) l
     | _ => true
     end
  && match stations with
     | Some ((_ :: _) as l) => mem (station_name (ids r)) l
     | _ => true
     end
  && match directions with
     | Some ((_ :: _) as l) => mem (direction (ids r)) l
     | _ => true
     end
  && match time_range with
     | Some tr => in_range tr r
     | None => true
     end.

(** A three-way comparison that behaves as an order: equality and
    strict order compose. *)
Definition order_like {A : Type} (cmp : A -> A -> comparison) : Prop :=
  (forall a b c, cmp a b = Eq -> cmp b c = Eq -> cmp a c = Eq)
  /\ (forall a b c, cmp a b = Eq -> cmp b c = Lt -> cmp a c = Lt)
  /\ (forall a b c, cmp a b = Lt -> cmp b c = Eq -> cmp a c = Lt)
  /\ (forall a b c, cmp a b = Lt -> cmp b c = Lt -> cmp a c = Lt).

(** The hour number of a header, as [normalize_time_slot] reads it. *)
Definition header_hour (col : string) : option Z :=
  match match_time col with
  | Some (h, _) => Some (int_digits 0 h)
  | None => None
  end.


(** Rows with the same time slot have the same time order. *)
Definition slot_determines_order (df : list LongRecord) : Prop :=
  forall r1 r2, In r1 df -> In r2 df ->
    time_slot r1 = time_slot r2 -> time_order r1 = time_order r2.

(** Every character of the text is a decimal digit. *)
Fixpoint digits_only (s : string) : bool :=
  match s with
  | EmptyString => true
  | String c s' => is_digit c && digits_only s'
  end.

(** The entry [create_time_order_map] makes for the header at position
    [i]. *)
Definition entry_at (time_col : string) (i : Z) : TimeEntry :=
  {| normalized := normalize_time_slot time_col; order := i |}.

(** No valid row of the view has a NaN congestion (the ETL flags such rows
    as missing). *)
Definition valid_rows_numeric (df : list LongRecord) : Prop :=
  forall r, In r (valid df) -> PrimFloat.is_nan (congestion r) = false.

(** The record [get_max_congestion_info] makes of a row. *)
Definition info_of (r : LongRecord) : MaxInfo.t :=
  {| MaxInfo.max_value := congestion r;
     MaxInfo.time_slot := time_slot r;
     MaxInfo.station_name := station_name (ids r);
     MaxInfo.line := line (ids r);
     MaxInfo.direction := direction (ids r);
     MaxInfo.weekday := weekday (ids r) |}.

(** The valid rows that the Top-N ranking groups: those inside the time
    range, when one is given. *)
Definition ranked_rows (df : list LongRecord) (time_range : option (Z * Z))
  : list LongRecord :=
  match time_range with
  | Some tr => filter (in_range tr) (valid df)
  | None => valid df
  end.

Definition station_key (r : LongRecord) : string * string :=
  (station_name (ids r), line (ids r)).




(** * Properties *)

(** ** Sorting: a sorted rearrangement *)

Section SortingFacts.
Context {A : Type}.
Variable cmp : A -> A -> comparison.

Lemma insert_perm (x : A) (l : list A) : Permutation (x :: l) (insert cmp x l).
Proof.
  induction l as [|y l IH]; simpl.
  - apply Permutation_refl.
  - destruct (le_of cmp x y).
    + apply Permutation_refl.
    + eapply perm_trans; [apply perm_swap|].
      apply perm_skip, IH.
Qed.

Lemma sort_values_perm (l : list A) : Permutation l (sort_values cmp l).
Proof.
  induction l as [|x l IH]; simpl.
  - constructor.
  - eapply perm_trans; [apply perm_skip, IH|].
    apply insert_perm.
Qed.

Lemma sort_values_Forall (P : A -> Prop) (l : list A) :
  Forall P l -> Forall P (sort_values cmp l).
Proof.
  intros H. eapply Permutation_Forall; [apply sort_values_perm|exact H].
Qed.

Lemma sort_values_length (l : list A) :
  List.length (sort_values cmp l) = List.length l.
Proof. symmetry. apply Permutation_length, sort_values_perm. Qed.

Hypothesis cmp_antisym : antisym_cmp cmp.

Lemma le_of_total (a b : A) : le_of cmp a b = false -> le_of cmp b a = true.
Proof.
  unfold le_of. rewrite (cmp_antisym b a).
  destruct (cmp a b); simpl; congruence.
Qed.

Lemma insert_sorted (x : A) (l : list A) :
  Sorted (fun a b => le_of cmp a b = true) l ->
  Sorted (fun a b => le_of cmp a b = true) (insert cmp x l).
Proof.
  induction 1 as [|y l Hs IH Hhd]; simpl.
  - repeat constructor.
  - destruct (le_of cmp x y) eqn:E.
    + constructor; [constructor; assumption|constructor; exact E].
    + constructor; [exact IH|].
      destruct l as [|z l]; simpl.
      * constructor. apply le_of_total, E.
      * destruct (le_of cmp x z).
        -- constructor. apply le_of_total, E.
        -- inversion Hhd; subst. constructor. assumption.
Qed.

Lemma sort_values_sorted (l : list A) :
  Sorted (fun a b => le_of cmp a b = true) (sort_values cmp l).
Proof.
  induction l as [|x l IH]; simpl.
  - constructor.
  - apply insert_sorted, IH.
Qed.

(** Where the order is transitive on the rows at hand, every row is below
    all the rows after it. *)
Lemma sorted_strongly (P : A -> Prop) (l : list A) :
  (forall a b c, P a -> P b -> P c ->
     le_of cmp a b = true -> le_of cmp b c = true -> le_of cmp a c = true) ->
  Forall P l ->
  Sorted (fun a b => le_of cmp a b = true) l ->
  StronglySorted (fun a b => le_of cmp a b = true) l.
Proof.
  intros Htrans HP Hs. induction Hs as [|a l Hs IH Hhd]; [constructor|].
  inversion HP as [|? ? Pa Pl]; subst.
  specialize (IH Pl). constructor; [exact IH|].
  destruct Hhd as [|b l' Hab]; [constructor|].
  constructor; [exact Hab|].
  inversion IH as [|? ? _ Hb]; subst.
  inversion Pl as [|? ? Pb Pl']; subst.
  rewrite Forall_forall in *. intros c Hc.
  apply (Htrans a b c); auto.
Qed.

Lemma sort_values_strongly_sorted (P : A -> Prop) (l : list A) :
  (forall a b c, P a -> P b -> P c ->
     le_of cmp a b = true -> le_of cmp b c = true -> le_of cmp a c = true) ->
  Forall P l ->
  StronglySorted (fun a b => le_of cmp a b = true) (sort_values cmp l).
Proof.
  intros Htrans HP. apply (sorted_strongly P); [exact Htrans| |].
  - apply sort_values_Forall, HP.
  - apply sort_values_sorted.
Qed.
End SortingFacts.

(** ** The error monad *)

Lemma mapM_Forall2 {A B : Type} (f : A -> result B) (l : list A) (l' : list B) :
  mapM f l = OK l' -> Forall2 (fun a b => f a = OK b) l l'.
Proof.
  revert l'. induction l as [|a l IH]; simpl; intros l' H.
  - inversion H. constructor.
  - destruct (f a) as [b|e] eqn:Ea; simpl in H; [|discriminate].
    destruct (mapM f l) as [bs|e] eqn:El; simpl in H; [|discriminate].
    inversion H; subst. constructor; [exact Ea|apply IH; reflexivity].
Qed.

Lemma mapM_total {A B : Type} (f : A -> result B) (l : list A) :
  Forall (fun a => exists b, f a = OK b) l -> exists l', mapM f l = OK l'.
Proof.
  induction 1 as [|a l [b Hb] _ [bs Hbs]]; simpl.
  - eexists; reflexivity.
  - rewrite Hb; simpl. rewrite Hbs; simpl. eexists; reflexivity.
Qed.

Lemma Forall2_length_eq {A B : Type} (R : A -> B -> Prop) (l : list A) (l' : list B) :
  Forall2 R l l' -> List.length l = List.length l'.
Proof. induction 1; simpl; congruence. Qed.

(** ** etl.py *)

Lemma col_index_In (c : string) (cols : list string) :
  In c cols -> exists i, col_index c cols = Some i.
Proof.
  induction cols as [|c' cols IH]; simpl; [tauto|].
  intros H. destruct (String.eqb c c') eqn:E.
  - eexists; reflexivity.
  - destruct H as [H|H].
    + subst. rewrite String.eqb_refl in E. discriminate.
    + destruct (IH H) as [i Hi]. rewrite Hi. eexists; reflexivity.
Qed.

Lemma col_index_not_In (c : string) (cols : list string) :
  ~ In c cols -> col_index c cols = None.
Proof.
  induction cols as [|c' cols IH]; simpl; [reflexivity|].
  intros H. destruct (String.eqb_spec c c') as [->|_]; [tauto|].
  rewrite IH by tauto. reflexivity.
Qed.

Lemma locate_In (df : WideFrame) (c : string) :
  In c (columns df) -> exists i, locate df c = OK i.
Proof.
  intros H. unfold locate. destruct (col_index_In _ _ H) as [i ->].
  eexists; reflexivity.
Qed.

Lemma get_time_columns_incl (df : WideFrame) (c : string) :
  In c (get_time_columns df) -> In c (columns df).
Proof. unfold get_time_columns. intros H. apply filter_In in H. tauto. Qed.

Lemma flat_map_length_const {A B : Type} (f : A -> list B) (n : nat) (l : list A) :
  (forall a, List.length (f a) = n) ->
  List.length (flat_map f l) = List.length l * n.
Proof.
  intros H. induction l as [|a l IH]; simpl; [reflexivity|].
  rewrite List.length_app, H, IH. reflexivity.
Qed.

Lemma locate_time_columns (df : WideFrame) (time_cols : list string) :
  (forall c, In c time_cols -> In c (columns df)) ->
  exists vv,
    mapM (fun c => j <- locate df c ;; OK (c, j)) time_cols = OK vv
    /\ List.length vv = List.length time_cols.
Proof.
  intros H.
  destruct (mapM_total (fun c => j <- locate df c ;; OK (c, j)) time_cols) as [vv Hvv].
  - apply Forall_forall. intros c Hc.
    destruct (locate_In df c (H c Hc)) as [j Hj].
    rewrite Hj. simpl. eexists; reflexivity.
  - exists vv. split; [exact Hvv|].
    symmetry. eapply Forall2_length_eq, mapM_Forall2, Hvv.
Qed.

Lemma unpivot_missing_id (df : WideFrame) (time_cols : list string) :
  mem "congestion_raw" (columns df) = false ->
  ~ In "요일구분" (columns df) ->
  unpivot_time_columns df time_cols = Raise (KeyError "요일구분").
Proof.
  intros Hv H. unfold unpivot_time_columns, locate. rewrite Hv.
  rewrite (col_index_not_In _ _ H). reflexivity.
Qed.

(** C5: a wide frame with R rows and T detected time columns (and the five
    identifier columns that the reshaping selects) is reshaped without an
    exception into exactly R * T long rows. *)
Theorem unpivot_row_count (df : WideFrame) :
  has_id_cols df ->
  exists df_long,
    unpivot_time_columns df (get_time_columns df) = OK df_long
    /\ List.length df_long
       = List.length (rows df) * List.length (get_time_columns df).
Proof.
  intros [Hid Hv]. unfold unpivot_time_columns. rewrite Hv.
  destruct (locate_In df "요일구분") as [i1 ->]; [apply Hid; simpl; tauto|].
  destruct (locate_In df "호선") as [i2 ->]; [apply Hid; simpl; tauto|].
  destruct (locate_In df "역번호") as [i3 ->]; [apply Hid; simpl; tauto|].
  destruct (locate_In df "출발역") as [i4 ->]; [apply Hid; simpl; tauto|].
  destruct (locate_In df "상하구분") as [i5 ->]; [apply Hid; simpl; tauto|].
  destruct (locate_time_columns df (get_time_columns df)) as [vv [-> Hlen]];
    [apply get_time_columns_incl|].
  simpl. eexists. split; [reflexivity|].
  rewrite (flat_map_length_const _ (List.length (rows df))).
  - rewrite Hlen. apply Nat.mul_comm.
  - intros [c j]. apply List.length_map.
Qed.

(** C3: [get_period] gives every hour one of the eight buckets and follows
    the bucket table on the hours of a day; the hours 1 to 4 fall in the
    unclassified bucket. *)
Theorem get_period_table (hour : Z) :
  In (get_period hour)
     ["심야"; "기타"; "새벽"; "출근"; "오전"; "오후"; "퇴근"; "저녁"]
  /\ (hour = 0 -> get_period hour = "심야")%Z
  /\ (1 <= hour < 5 -> get_period hour = "기타")%Z
  /\ (5 <= hour < 7 -> get_period hour = "새벽")%Z
  /\ (7 <= hour < 9 -> get_period hour = "출근")%Z
  /\ (9 <= hour < 12 -> get_period hour = "오전")%Z
  /\ (12 <= hour < 18 -> get_period hour = "오후")%Z
  /\ (18 <= hour < 20 -> get_period hour = "퇴근")%Z
  /\ (20 <= hour < 24 -> get_period hour = "저녁")%Z.
Proof.
  unfold get_period.
  repeat split; try intros H;
    repeat match goal with
    | |- context [(?a <=? ?b)%Z] => destruct (Z.leb_spec a b); simpl
    | |- context [(?a <? ?b)%Z] => destruct (Z.ltb_spec a b); simpl
    end; try reflexivity; try lia; tauto.
Qed.

Lemma get_period_table_witness :
  get_period 0 = "심야" /\ get_period 3 = "기타" /\ get_period 6 = "새벽"
  /\ get_period 8 = "출근" /\ get_period 10 = "오전" /\ get_period 15 = "오후"
  /\ get_period 19 = "퇴근" /\ get_period 23 = "저녁".
Proof.
  split; [apply (get_period_table 0); reflexivity|].
  split; [apply (get_period_table 3); lia|].
  split; [apply (get_period_table 6); lia|].
  split; [apply (get_period_table 8); lia|].
  split; [apply (get_period_table 10); lia|].
  split; [apply (get_period_table 15); lia|].
  split; [apply (get_period_table 19); lia|].
  apply (get_period_table 23); lia.
Defined.

(** C4: an empty [lines] list filters like an omitted one, and so does an
    empty [directions] list, whatever the other arguments are. *)
Theorem filter_data_empty_is_none (df : list LongRecord)
    (weekday_arg : option string) (lines stations directions : option (list string))
    (time_range : option (Z * Z)) :
  filter_data df weekday_arg (Some []) stations directions time_range
  = filter_data df weekday_arg None stations directions time_range
  /\ filter_data df weekday_arg lines stations (Some []) time_range
     = filter_data df weekday_arg lines stations None time_range.
Proof. split; reflexivity. Qed.

Lemma Forall2_In_right {A B : Type} (R : A -> B -> Prop) (l : list A) (l' : list B) (b : B) :
  Forall2 R l l' -> In b l' -> exists a, In a l /\ R a b.
Proof.
  induction 1 as [|a0 b0 l l' HR _ IH]; simpl; [tauto|].
  intros [<-|Hin].
  - exists a0. tauto.
  - destruct (IH Hin) as [a [Ha HRa]]. exists a. tauto.
Qed.

Section ETLFacts.
Variable to_numeric : string -> float.

Lemma transform_stages (df : WideFrame) (out : list LongRecord) :
  transform to_numeric df = OK out ->
  exists df_long df_timed,
    unpivot_time_columns df (get_time_columns df) = OK df_long
    /\ add_time_features (clean_congestion_values to_numeric df_long)
         (create_time_order_map (get_time_columns df)) = OK df_timed
    /\ out = save_parquet (rename_columns (handle_missing_values df_timed)).
Proof.
  unfold transform. intros H.
  destruct (unpivot_time_columns df (get_time_columns df)) as [df_long|e];
    simpl in H; [|discriminate].
  destruct (add_time_features _ _) as [df_timed|e] eqn:Et;
    simpl in H; [|discriminate].
  inversion H; subst. exists df_long, df_timed. auto.
Qed.

Lemma add_time_features_cleaned (df : list CleanRow) (time_map : TimeMap)
    (df_timed : list TimedRow) :
  add_time_features df time_map = OK df_timed ->
  Forall2 (fun c t => cleaned t = c /\ per t = get_period (hr t)) df df_timed.
Proof.
  unfold add_time_features. intros H. apply mapM_Forall2 in H.
  induction H as [|c t l l' Hct _ IH]; constructor; [|exact IH].
  destruct (dict_get time_map (time_slot_raw (melted c))) as [e1|?];
    simpl in Hct; [|discriminate].
  destruct (astype_int (before_colon (normalized e1))) as [h|?];
    simpl in Hct; [|discriminate].
  inversion Hct; subst. simpl. auto.
Qed.

Lemma flag_iff (x : float) :
  PrimFloat.eqb x 0 || PrimFloat.is_nan x = true
  <-> PrimFloat.is_nan x = true \/ PrimFloat.eqb x 0 = true.
Proof. rewrite orb_true_iff. tauto. Qed.
End ETLFacts.

(** C2: in every row of the table the ETL persists, [is_missing] is true
    exactly when [congestion] is absent (NaN) or compares equal to [0.0];
    and [congestion] is what [to_numeric] makes of the trimmed raw cell of
    the reshaped row the record comes from. *)
Theorem is_missing_iff_absent_or_zero (to_numeric : string -> float)
    (df : WideFrame) (out : list LongRecord) :
  transform to_numeric df = OK out ->
  exists df_long,
    unpivot_time_columns df (get_time_columns df) = OK df_long
    /\ Forall (fun r =>
         (is_missing r = true
          <-> PrimFloat.is_nan (congestion r) = true
              \/ PrimFloat.eqb (congestion r) 0 = true)
         /\ exists m, In m df_long
              /\ ids r = id_vars m
              /\ congestion r = to_numeric (strip (congestion_raw m))) out.
Proof.
  intros H. apply transform_stages in H.
  destruct H as [df_long [df_timed [Hu [Ht ->]]]].
  exists df_long. split; [exact Hu|].
  unfold save_parquet. apply sort_values_Forall.
  apply Forall_forall. intros r Hr.
  apply in_map_iff in Hr. destruct Hr as [f [<- Hf]].
  unfold rename_columns, handle_missing_values in Hf.
  apply in_map_iff in Hf. destruct Hf as [t [<- Hin]].
  simpl. split; [apply flag_iff|].
  apply add_time_features_cleaned in Ht.
  destruct (Forall2_In_right _ _ _ _ Ht Hin) as [c [Hc [Hct _]]].
  unfold clean_congestion_values in Hc.
  apply in_map_iff in Hc. destruct Hc as [m [Hm Hmin]].
  exists m. rewrite Hct, <- Hm. simpl. auto.
Qed.

Lemma sample_wide_has_id_cols : has_id_cols sample_wide.
Proof.
  split; [|reflexivity].
  intros c Hc. simpl in Hc. simpl.
  repeat (destruct Hc as [<-|Hc]; [tauto|]). contradiction.
Defined.

Lemma unpivot_row_count_witness :
  exists df_long,
    unpivot_time_columns sample_wide (get_time_columns sample_wide) = OK df_long
    /\ List.length df_long = 2 * 3.
Proof. exact (unpivot_row_count sample_wide sample_wide_has_id_cols). Defined.

Lemma is_missing_iff_absent_or_zero_witness :
  exists out,
    transform sample_to_numeric sample_wide = OK out
    /\ exists df_long,
         unpivot_time_columns sample_wide (get_time_columns sample_wide) = OK df_long
         /\ Forall (fun r =>
              (is_missing r = true
               <-> PrimFloat.is_nan (congestion r) = true
                   \/ PrimFloat.eqb (congestion r) 0 = true)
              /\ exists m, In m df_long
                   /\ ids r = id_vars m
                   /\ congestion r = sample_to_numeric (strip (congestion_raw m))) out.
Proof.
  eexists. split; [vm_compute; reflexivity|].
  apply (is_missing_iff_absent_or_zero sample_to_numeric sample_wide).
  vm_compute. reflexivity.
Defined.

Lemma unpivot_no_time_columns (df : WideFrame) :
  has_id_cols df -> unpivot_time_columns df [] = OK [].
Proof.
  intros [Hid Hv]. unfold unpivot_time_columns. rewrite Hv.
  destruct (locate_In df "요일구분") as [i1 ->]; [apply Hid; simpl; tauto|].
  destruct (locate_In df "호선") as [i2 ->]; [apply Hid; simpl; tauto|].
  destruct (locate_In df "역번호") as [i3 ->]; [apply Hid; simpl; tauto|].
  destruct (locate_In df "출발역") as [i4 ->]; [apply Hid; simpl; tauto|].
  destruct (locate_In df "상하구분") as [i5 ->]; [apply Hid; simpl; tauto|].
  reflexivity.
Qed.

(** C1, as the code has it: with no time-slot column detected (and the five
    identifier columns present) nothing is raised; the reshaping gives zero
    long rows and the job reaches the save step with an empty table. *)
Theorem zero_time_columns_persists_empty (to_numeric : string -> float)
    (raw_data_dir : list RawFile) (raw_data_path : RawFile) (df : WideFrame) :
  find_csv_file raw_data_dir = OK raw_data_path ->
  load_csv raw_data_path = OK df ->
  has_id_cols df ->
  get_time_columns df = [] ->
  unpivot_time_columns df (get_time_columns df) = OK []
  /\ main to_numeric raw_data_dir = OK [].
Proof.
  intros Hf Hl Hid Ht.
  assert (Hu : unpivot_time_columns df (get_time_columns df) = OK []).
  { rewrite Ht. apply unpivot_no_time_columns, Hid. }
  split; [exact Hu|].
  unfold main. rewrite Hf. simpl. rewrite Hl. simpl.
  unfold transform. rewrite Hu. reflexivity.
Qed.

Lemma sample_ids_only_has_id_cols : has_id_cols sample_ids_only.
Proof.
  split; [|reflexivity].
  intros c Hc. simpl in Hc. simpl.
  repeat (destruct Hc as [<-|Hc]; [tauto|]). contradiction.
Defined.

Lemma zero_time_columns_persists_empty_witness :
  unpivot_time_columns sample_ids_only (get_time_columns sample_ids_only) = OK []
  /\ main sample_to_numeric [fun _ => Parsed sample_ids_only] = OK [].
Proof.
  apply (zero_time_columns_persists_empty sample_to_numeric
           [fun _ => Parsed sample_ids_only] (fun _ => Parsed sample_ids_only)
           sample_ids_only).
  - reflexivity.
  - reflexivity.
  - exact sample_ids_only_has_id_cols.
  - reflexivity.
Defined.

(** C1, as stated, fails: a source file with the identifier columns only
    has zero detected time columns, and the job ends without an exception,
    having saved an empty table. *)
Lemma zero_time_columns_abort_counterexample :
  get_time_columns sample_ids_only = []
  /\ main sample_to_numeric [fun _ => Parsed sample_ids_only] = OK []
  /\ ~ (exists e, main sample_to_numeric [fun _ => Parsed sample_ids_only] = Raise e).
Proof.
  split; [reflexivity|]. split; [reflexivity|].
  intros [e He]. vm_compute in He. discriminate He.
Qed.

(** ** metrics.py *)

Lemma valid_length (df : list LongRecord) :
  List.length (filter is_missing df) + List.length (valid df) = List.length df.
Proof.
  unfold valid. induction df as [|r df IH]; simpl; [reflexivity|].
  destruct (is_missing r); simpl; lia.
Qed.

Lemma length_zero_iff_nil {A : Type} (l : list A) :
  (List.length l =? 0)%nat = true <-> l = [].
Proof. destruct l; simpl; split; congruence. Qed.

(** C6: [missing_pct] is the number of missing rows over the number of
    rows of the view, times 100; when no row is valid every statistic is
    zero and [missing_pct] is 100.0; ten rows with three missing give 30.0
    exactly. *)
Theorem stats_missing_pct (series_sum : list float -> float) (df : list LongRecord) :
  (valid df <> [] ->
   Stats.missing_pct (get_congestion_stats series_sum df)
   = (of_nat (List.length (filter is_missing df)) / of_nat (List.length df) * 100)%float)
  /\ (valid df = [] ->
      get_congestion_stats series_sum df
      = {| Stats.count := 0; Stats.mean := 0%float; Stats.median := 0%float;
           Stats.std := 0%float; Stats.min := 0%float; Stats.max := 0%float;
           Stats.missing_pct := 100%float |})
  /\ (List.length df = 10%nat ->
      List.length (filter is_missing df) = 3%nat ->
      Stats.missing_pct (get_congestion_stats series_sum df) = 30%float).
Proof.
  unfold get_congestion_stats.
  destruct (List.length (valid df) =? 0)%nat eqn:E.
  - apply length_zero_iff_nil in E. repeat split.
    + intros H. contradiction.
    + intros Hlen Hmiss. pose proof (valid_length df) as Hv.
      rewrite E, Hlen, Hmiss in Hv. simpl in Hv. discriminate.
  - repeat split.
    + intros H. rewrite H in E. simpl in E. discriminate.
    + intros Hlen Hmiss. simpl. rewrite Hlen, Hmiss. vm_compute. reflexivity.
Qed.

Lemma stats_missing_pct_witness :
  Stats.missing_pct (get_congestion_stats sample_sum sample_view) = 30%float
  /\ Stats.missing_pct (get_congestion_stats sample_sum sample_night)
     = (of_nat 0 / of_nat 1 * 100)%float
  /\ get_congestion_stats sample_sum [sample_record "시청" "2호선" "06:00" 1 0%float 6 true]
     = {| Stats.count := 0; Stats.mean := 0%float; Stats.median := 0%float;
          Stats.std := 0%float; Stats.min := 0%float; Stats.max := 0%float;
          Stats.missing_pct := 100%float |}.
Proof.
  split; [|split].
  - apply (stats_missing_pct sample_sum sample_view); reflexivity.
  - apply (proj1 (stats_missing_pct sample_sum sample_night)).
    simpl. discriminate.
  - apply (stats_missing_pct sample_sum
             [sample_record "시청" "2호선" "06:00" 1 0%float 6 true]).
    reflexivity.
Defined.

(** C9: an [aggregate] that is none of 'max', 'mean', 'sum' ranks exactly
    as 'max' does. *)
Theorem top_n_unknown_aggregate_is_max (group_sum : list float -> float)
    (df : list LongRecord) (n : Z) (time_range : option (Z * Z)) (aggregate : string) :
  ~ In aggregate ["max"; "mean"; "sum"] ->
  get_top_n_stations group_sum df n time_range aggregate
  = get_top_n_stations group_sum df n time_range "max".
Proof.
  intros H. unfold get_top_n_stations.
  destruct (String.eqb_spec aggregate "max") as [->|_]; [reflexivity|].
  destruct (String.eqb_spec aggregate "mean") as [->|_]; [simpl in H; tauto|].
  destruct (String.eqb_spec aggregate "sum") as [->|_]; [simpl in H; tauto|].
  reflexivity.
Qed.

Lemma top_n_unknown_aggregate_is_max_witness :
  get_top_n_stations sample_sum sample_view 3 (Some (0, 3)%Z) "median"
  = get_top_n_stations sample_sum sample_view 3 (Some (0, 3)%Z) "max".
Proof.
  apply (top_n_unknown_aggregate_is_max sample_sum sample_view 3 (Some (0, 3)%Z) "median").
  simpl. intros [H|[H|[H|[]]]]; discriminate H.
Defined.

(** C10: with exactly one valid row the [std] of the summary is NaN, not
    0.0: the sample standard deviation (ddof = 1) of one value. *)
Theorem std_of_single_valid_row_is_nan (series_sum : list float -> float)
    (df : list LongRecord) :
  List.length (valid df) = 1%nat ->
  PrimFloat.is_nan (Stats.std (get_congestion_stats series_sum df)) = true
  /\ PrimFloat.eqb (Stats.std (get_congestion_stats series_sum df)) 0 = false.
Proof.
  intros H. unfold get_congestion_stats. rewrite H. simpl.
  destruct (valid df) as [|r [|r' l]]; simpl in H; try discriminate.
  unfold reduce_std, dropna. simpl.
  destruct (notna (congestion r)); simpl; split; reflexivity.
Qed.

Lemma std_of_single_valid_row_is_nan_witness :
  PrimFloat.is_nan (Stats.std (get_congestion_stats sample_sum sample_night)) = true
  /\ PrimFloat.eqb (Stats.std (get_congestion_stats sample_sum sample_night)) 0 = false.
Proof.
  apply (std_of_single_valid_row_is_nan sample_sum sample_night). reflexivity.
Defined.

(** ** Groups and categories *)

Lemma string_compare_refl (s : string) : String.compare s s = Eq.
Proof.
  pose proof (String.compare_antisym s s) as H.
  destruct (String.compare s s); simpl in H; congruence.
Qed.

Lemma same_key_eqb (a b : string) :
  same_key String.compare a b = String.eqb a b.
Proof.
  unfold same_key. destruct (String.eqb_spec a b) as [->|Hne].
  - rewrite string_compare_refl. reflexivity.
  - destruct (String.compare a b) eqn:E; try reflexivity.
    apply String.compare_eq_iff in E. contradiction.
Qed.

Lemma unique_In (l : list string) (k : string) :
  In k (unique String.compare l) <-> In k l.
Proof.
  induction l as [|a l IH]; simpl; [tauto|].
  rewrite filter_In, IH, same_key_eqb.
  destruct (String.eqb_spec a k) as [->|Hne]; simpl; intuition congruence.
Qed.

Lemma filter_split_perm {A : Type} (f : A -> bool) (l : list A) :
  Permutation (filter (fun a => negb (f a)) l ++ filter f l) l.
Proof.
  induction l as [|a l IH]; simpl; [constructor|].
  destruct (f a); simpl.
  - apply Permutation_sym. eapply perm_trans.
    + apply perm_skip, Permutation_sym, IH.
    + apply Permutation_middle.
  - apply perm_skip, IH.
Qed.

Lemma sort_by_category_perm {B : Type} (categories : list string)
    (df : list (option string * B)) :
  Permutation (sort_by_category categories df) df.
Proof.
  unfold sort_by_category.
  eapply perm_trans; [|apply (filter_split_perm (fun e => is_none (fst e)))].
  apply Permutation_app_tail, Permutation_sym, sort_values_perm.
Qed.

Lemma cmp_category_antisym (categories : list string) :
  antisym_cmp (cmp_category categories).
Proof.
  intros [x|] [y|]; simpl; try reflexivity.
  destruct (category_code categories x), (category_code categories y);
    try reflexivity.
  apply Nat.compare_antisym.
Qed.

Lemma Categorical_Some (categories : list string) (v p : string) :
  Categorical categories v = Some p -> p = v /\ In p categories.
Proof.
  unfold Categorical. destruct (category_code categories v) as [i|] eqn:E;
    [|discriminate].
  intros H. inversion H; subst. split; [reflexivity|].
  revert i E. induction categories as [|c cs IH]; simpl; [discriminate|].
  intros i E. destruct (String.eqb_spec p c) as [->|_]; [tauto|].
  destruct (category_code cs p) as [j|]; [|discriminate].
  right. eapply IH. reflexivity.
Qed.

Lemma period_average_unfold (group_sum : list float -> float) (df : list LongRecord) :
  get_average_congestion_by_period group_sum df
  = sort_by_category period_order
      (map (fun p => (Categorical period_order p, period_mean group_sum df p))
           (sort_values String.compare
              (unique String.compare (map period (valid df))))).
Proof.
  unfold get_average_congestion_by_period.
  destruct (List.length (valid df) =? 0)%nat eqn:E.
  - apply length_zero_iff_nil in E. rewrite E. reflexivity.
  - unfold groupby. rewrite !map_map. f_equal.
    apply map_ext. intros p. simpl. unfold period_mean.
    do 3 f_equal. apply filter_ext. intros r. apply same_key_eqb.
Qed.

(** C7, as the code has it: the means are taken over the valid rows, one
    per period present; the rows of the canonical periods come first, in
    canonical order; a period outside the canonical sequence, such as the
    unclassified one of hours 1 to 4, keeps its row, with the label turned
    into NaN (no category), after the canonical ones. *)
Theorem period_average_rows (group_sum : list float -> float) (df : list LongRecord) :
  (forall label avg,
     In (label, avg) (get_average_congestion_by_period group_sum df)
     <-> exists p, In p (map period (valid df))
           /\ label = Categorical period_order p
           /\ avg = period_mean group_sum df p)
  /\ (exists ranked rest,
        get_average_congestion_by_period group_sum df = ranked ++ rest
        /\ Sorted (fun a b => le_of (cmp_category period_order) (fst a) (fst b) = true) ranked
        /\ Forall (fun e => exists p, fst e = Some p /\ In p period_order) ranked
        /\ Forall (fun e => fst e = None) rest)
  /\ (In "기타" (map period (valid df)) ->
      In (None, period_mean group_sum df "기타")
         (get_average_congestion_by_period group_sum df)).
Proof.
  rewrite period_average_unfold.
  set (keys := sort_values String.compare (unique String.compare (map period (valid df)))).
  set (rows_of := map (fun p => (Categorical period_order p, period_mean group_sum df p)) keys).
  assert (Hkeys : forall p, In p keys <-> In p (map period (valid df))).
  { intros p. unfold keys. split; intros H.
    - apply unique_In.
      eapply Permutation_in; [apply Permutation_sym, sort_values_perm|exact H].
    - eapply Permutation_in; [apply sort_values_perm|]. apply unique_In, H. }
  assert (Hin : forall label avg,
             In (label, avg) (sort_by_category period_order rows_of)
             <-> exists p, In p (map period (valid df))
                   /\ label = Categorical period_order p
                   /\ avg = period_mean group_sum df p).
  { intros label avg. split.
    - intros H. eapply Permutation_in in H; [|apply sort_by_category_perm].
      unfold rows_of in H. apply in_map_iff in H. destruct H as [p [Hp Hk]].
      inversion Hp; subst. exists p. rewrite <- Hkeys. auto.
    - intros [p [Hp [-> ->]]].
      eapply Permutation_in; [apply Permutation_sym, sort_by_category_perm|].
      unfold rows_of. apply in_map_iff. exists p. rewrite Hkeys. auto. }
  split; [exact Hin|]. split.
  - unfold sort_by_category. eexists. eexists. split; [reflexivity|].
    split; [|split].
    + apply (sort_values_sorted (fun a b => cmp_category period_order (fst a) (fst b))).
      intros a b. apply cmp_category_antisym.
    + apply sort_values_Forall. apply Forall_forall. intros [label avg] H.
      apply filter_In in H. destruct H as [H Hsome]. simpl in *.
      unfold rows_of in H. apply in_map_iff in H. destruct H as [p [Hp _]].
      inversion Hp; subst. destruct (Categorical period_order p) as [q|] eqn:Eq;
        [|discriminate].
      exists q. split; [reflexivity|].
      exact (proj2 (Categorical_Some period_order p q Eq)).
    + apply Forall_forall. intros [[q|] avg] H; apply filter_In in H;
        destruct H as [_ H]; simpl in *; [discriminate|reflexivity].
  - intros H. apply Hin. exists "기타". auto.
Qed.

Lemma period_average_rows_witness :
  In (None, period_mean sample_sum sample_view "기타")
     (get_average_congestion_by_period sample_sum sample_view).
Proof.
  apply (period_average_rows sample_sum sample_view).
  vm_compute. tauto.
Defined.

(** C7, as stated, fails: a view whose one valid row lies in the
    unclassified period still gets a row for it, labelled NaN. *)
Lemma period_average_drops_other_counterexample :
  map period (valid sample_night) = ["기타"]
  /\ ~ In "기타" period_order
  /\ get_average_congestion_by_period sample_sum sample_night = [(None, 30%float)].
Proof.
  split; [reflexivity|]. split; [|vm_compute; reflexivity].
  simpl. intros H. repeat (destruct H as [H|H]; [discriminate H|]). exact H.
Qed.

(** ** data.py *)

Lemma cols_to_keep_known (r : LongRecord) :
  map fst (projection cols_to_keep r) = cols_to_keep.
Proof. reflexivity. Qed.

Lemma select_download (df : list LongRecord) :
  select download_cols df = OK (map (projection download_cols) df).
Proof.
  unfold select. induction df as [|r df IH]; simpl; [reflexivity|].
  rewrite IH. reflexivity.
Qed.

(** Text order is a total order. *)

Lemma ascii_compare_refl (a : ascii) : Ascii.compare a a = Eq.
Proof. apply N.compare_refl. Qed.

Lemma ascii_compare_lt_trans (a b c : ascii) :
  Ascii.compare a b = Lt -> Ascii.compare b c = Lt -> Ascii.compare a c = Lt.
Proof.
  unfold Ascii.compare. rewrite !N.compare_lt_iff. apply N.lt_trans.
Qed.

Lemma string_compare_lt_trans (a b c : string) :
  String.compare a b = Lt -> String.compare b c = Lt -> String.compare a c = Lt.
Proof.
  revert b c. induction a as [|x a IH]; intros [|y b] [|z c]; simpl;
    try discriminate; try reflexivity.
  destruct (Ascii.compare x y) eqn:Exy; try discriminate;
    destruct (Ascii.compare y z) eqn:Eyz; try discriminate; intros Hab Hbc.
  - apply Ascii.compare_eq_iff in Exy, Eyz. subst.
    rewrite ascii_compare_refl. eapply IH; eassumption.
  - apply Ascii.compare_eq_iff in Exy. subst. rewrite Eyz. reflexivity.
  - apply Ascii.compare_eq_iff in Eyz. subst. rewrite Exy. reflexivity.
  - rewrite (ascii_compare_lt_trans x y z Exy Eyz). reflexivity.
Qed.

Lemma cmp_keys_trans (a b c : list string) :
  List.length a = List.length b -> List.length b = List.length c ->
  le_of cmp_keys a b = true -> le_of cmp_keys b c = true ->
  le_of cmp_keys a c = true.
Proof.
  unfold le_of. revert b c.
  induction a as [|x a IH]; intros [|y b] [|z c]; simpl;
    try discriminate; try reflexivity.
  intros Hab Hbc. injection Hab as Hab. injection Hbc as Hbc.
  destruct (String.compare x y) eqn:Exy; simpl; try discriminate;
    destruct (String.compare y z) eqn:Eyz; simpl; try discriminate.
  - apply String.compare_eq_iff in Exy, Eyz. subst.
    rewrite string_compare_refl. simpl. apply IH; assumption.
  - apply String.compare_eq_iff in Exy. subst. rewrite Eyz. reflexivity.
  - apply String.compare_eq_iff in Eyz. subst. rewrite Exy. reflexivity.
  - rewrite (string_compare_lt_trans x y z Exy Eyz). reflexivity.
Qed.

Lemma cmp_by_projection (r1 r2 : LongRecord) :
  cmp_by download_sort_keys (projection download_cols r1) (projection download_cols r2)
  = cmp_keys (sort_key r1) (sort_key r2).
Proof. reflexivity. Qed.

Lemma lex_antisym (c1 c2 d1 d2 : comparison) :
  c1 = CompOpp d1 -> c2 = CompOpp d2 -> lex c1 c2 = CompOpp (lex d1 d2).
Proof. intros -> ->. destruct d1; reflexivity. Qed.

Lemma cmp_cell_antisym : antisym_cmp cmp_cell.
Proof.
  intros [[s| | |]|] [[t| | |]|]; simpl; try reflexivity.
  apply String.compare_antisym.
Qed.

Lemma cmp_by_antisym (by_cols : list string) : antisym_cmp (cmp_by by_cols).
Proof.
  intros a b. induction by_cols as [|c cs IH]; simpl; [reflexivity|].
  apply lex_antisym; [apply cmp_cell_antisym|exact IH].
Qed.

(** C8, as the code has it: the export never raises; it holds the rows of
    the view, each cut down to the columns weekday, line, station_name,
    direction, time_slot, congestion, hour, period, that is the persisted
    columns without station_id, time_order and is_missing, and it is
    sorted on the text of (line, station_name, weekday, direction,
    time_slot). *)
Theorem download_sorted_projection (df : list LongRecord) :
  exists out,
    prepare_download_data df = OK out
    /\ Permutation (map (projection download_cols) df) out
    /\ StronglySorted (fun a b => le_of (cmp_by download_sort_keys) a b = true) out
    /\ Forall (fun row =>
                 map fst row = download_cols
                 /\ forall c, In c download_sort_keys ->
                      exists s, lookup c row = Some (VStr s)) out
    /\ download_cols
       = filter (fun c => negb (mem c ["station_id"; "time_order"; "is_missing"]))
                cols_to_keep.
Proof.
  unfold prepare_download_data. rewrite select_download. cbn [bind].
  eexists. split; [reflexivity|]. split; [apply sort_values_perm|].
  split.
  { apply (sort_values_strongly_sorted _ (cmp_by_antisym download_sort_keys)
             (fun row => exists r, row = projection download_cols r)).
    - intros a b c [ra ->] [rb ->] [rc ->]. unfold le_of.
      rewrite !cmp_by_projection. apply cmp_keys_trans; reflexivity.
    - apply Forall_forall. intros row H. apply in_map_iff in H.
      destruct H as [r [<- _]]. exists r. reflexivity. }
  split; [|reflexivity].
  apply sort_values_Forall. apply Forall_forall. intros row H.
  apply in_map_iff in H. destruct H as [r [<- _]].
  split; [reflexivity|].
  intros c Hc. simpl in Hc.
  repeat (destruct Hc as [<-|Hc]; [eexists; reflexivity|]). contradiction.
Qed.

(** C8, as stated, fails: time_order is a column of the persisted record
    other than is_missing and station_id, and the export does not carry
    it. *)
Lemma download_drops_time_order_counterexample :
  exists row,
    prepare_download_data sample_night = OK [row]
    /\ In "time_order"
          (filter (fun c => negb (mem c ["is_missing"; "station_id"])) cols_to_keep)
    /\ lookup "time_order" row = None
    /\ map fst row
       <> filter (fun c => negb (mem c ["is_missing"; "station_id"])) cols_to_keep.
Proof.
  eexists. split; [vm_compute; reflexivity|].
  split; [vm_compute; tauto|]. split; [reflexivity|].
  vm_compute. discriminate.
Qed.

(** * Further properties *)

(** ** data.py: the filters *)

Lemma filter_filter {A : Type} (f g : A -> bool) (l : list A) :
  filter f (filter g l) = filter (fun a => g a && f a) l.
Proof.
  induction l as [|a l IH]; simpl; [reflexivity|].
  destruct (g a); simpl; [destruct (f a)|]; rewrite IH; reflexivity.
Qed.

Lemma filter_keeps_all {A : Type} (keep : A -> bool) (l : list A) :
  Forall (fun a => keep a = true) l -> filter keep l = l.
Proof.
  induction 1 as [|a l Ha _ IH]; simpl; [reflexivity|].
  rewrite Ha, IH. reflexivity.
Qed.

Lemma weekday_filter (df : list LongRecord) (weekday_arg : option string) :
  match weekday_arg with
  | Some w =>
      if negb (is_empty w) && negb (String.eqb w "전체")
      then filter (fun r => String.eqb (weekday (ids r)) w) df
      else df
  | None => df
  end
  = filter (fun r =>
              match weekday_arg with
              | Some w => is_empty w || String.eqb w "전체"
                          || String.eqb (weekday (ids r)) w
              | None => true
              end) df.
Proof.
  destruct weekday_arg as [w|]; [|symmetry; apply filter_keeps_all, Forall_forall; reflexivity].
  destruct (is_empty w); simpl; [symmetry; apply filter_keeps_all, Forall_forall; reflexivity|].
  destruct (String.eqb w "전체"); simpl; [symmetry; apply filter_keeps_all, Forall_forall; reflexivity|].
  reflexivity.
Qed.

Lemma list_filter (df : list LongRecord) (field : LongRecord -> string)
    (x : option (list string)) :
  match restricts x with
  | Some l => filter (fun r => mem (field r) l) df
  | None => df
  end
  = filter (fun r =>
              match x with
              | Some ((_ :: _) as l) => mem (field r) l
              | _ => true
              end) df.
Proof.
  destruct x as [[|a l]|]; simpl; try (symmetry; apply filter_keeps_all, Forall_forall; reflexivity).
  reflexivity.
Qed.

Lemma range_filter (df : list LongRecord) (time_range : option (Z * Z)) :
  match time_range with
  | Some tr => filter (in_range tr) df
  | None => df
  end
  = filter (fun r =>
              match time_range with
              | Some tr => in_range tr r
              | None => true
              end) df.
Proof.
  destruct time_range; [reflexivity|]. symmetry.
  apply filter_keeps_all, Forall_forall. reflexivity.
Qed.

Lemma filter_data_passes (df : list LongRecord) (weekday_arg : option string)
    (lines stations directions : option (list string))
    (time_range : option (Z * Z)) :
  filter_data df weekday_arg lines stations directions time_range
  = filter (passes weekday_arg lines stations directions time_range) df.
Proof.
  unfold filter_data. cbv zeta.
  rewrite range_filter, (list_filter _ (fun r => direction (ids r))),
    (list_filter _ (fun r => station_name (ids r))),
    (list_filter _ (fun r => line (ids r))), weekday_filter.
  rewrite !filter_filter. apply filter_ext. intros r. unfold passes.
  rewrite !andb_assoc. reflexivity.
Qed.

(** The filters act as one conjunction: a row is in the result exactly when
    it is in the frame and meets every restriction in force (weekday unless
    absent, empty or '전체'; each non-empty list; the inclusive range of
    time orders); the rows of the frame are kept or dropped, never added or
    reordered. *)
Theorem filter_data_conjunction (df : list LongRecord) (weekday_arg : option string)
    (lines stations directions : option (list string))
    (time_range : option (Z * Z)) :
  filter_data df weekday_arg lines stations directions time_range
  = filter (passes weekday_arg lines stations directions time_range) df
  /\ forall r,
       In r (filter_data df weekday_arg lines stations directions time_range)
       <-> In r df
           /\ (forall w, weekday_arg = Some w -> w <> "" -> w <> "전체" ->
                 weekday (ids r) = w)
           /\ (forall a l, lines = Some (a :: l) -> In (line (ids r)) (a :: l))
           /\ (forall a l, stations = Some (a :: l) ->
                 In (station_name (ids r)) (a :: l))
           /\ (forall a l, directions = Some (a :: l) ->
                 In (direction (ids r)) (a :: l))
           /\ (forall lo hi, time_range = Some (lo, hi) ->
                 (lo <= time_order r <= hi)%Z).
Proof.
  split; [apply filter_data_passes|].
  intros r. rewrite filter_data_passes, filter_In.
  assert (Hmem : forall s l, mem s l = true <-> In s l).
  { intros s l. unfold mem. rewrite existsb_exists. split.
    - intros [x [Hx Hs]]. apply String.eqb_eq in Hs. subst. exact Hx.
    - intros H. exists s. split; [exact H|apply String.eqb_refl]. }
  unfold passes. rewrite !andb_true_iff.
  split; intros [Hin H]; (split; [exact Hin|]).
  - destruct H as [[[[Hw Hl] Hs] Hd] Ht].
    split; [|split; [|split; [|split]]].
    + intros w -> Hne Hall.
      assert (E1 : is_empty w = false) by (destruct w; [congruence|reflexivity]).
      apply String.eqb_neq in Hall. rewrite E1, Hall in Hw. cbn [orb] in Hw.
      apply String.eqb_eq in Hw. exact Hw.
    + intros a l ->. apply Hmem, Hl.
    + intros a l ->. apply Hmem, Hs.
    + intros a l ->. apply Hmem, Hd.
    + intros lo hi ->. simpl in Ht. apply andb_true_iff in Ht.
      rewrite !Z.leb_le in Ht. lia.
  - destruct H as [Hw [Hl [Hs [Hd Ht]]]]. repeat split.
    + destruct weekday_arg as [w|]; [|reflexivity].
      destruct (is_empty w) eqn:E1; [reflexivity|].
      destruct (String.eqb w "전체") eqn:E2; [reflexivity|]. cbn [orb].
      apply String.eqb_eq, Hw;
        [reflexivity|intros ->; discriminate E1|apply String.eqb_neq, E2].
    + destruct lines as [[|a l]|]; try reflexivity. apply Hmem, (Hl a l eq_refl).
    + destruct stations as [[|a l]|]; try reflexivity. apply Hmem, (Hs a l eq_refl).
    + destruct directions as [[|a l]|]; try reflexivity. apply Hmem, (Hd a l eq_refl).
    + destruct time_range as [[lo hi]|]; [|reflexivity]. simpl.
      specialize (Ht lo hi eq_refl). apply andb_true_iff.
      rewrite !Z.leb_le. lia.
Qed.

(** Filtering twice with the same arguments changes nothing more. *)
Theorem filter_data_idempotent (df : list LongRecord) (weekday_arg : option string)
    (lines stations directions : option (list string))
    (time_range : option (Z * Z)) :
  filter_data (filter_data df weekday_arg lines stations directions time_range)
    weekday_arg lines stations directions time_range
  = filter_data df weekday_arg lines stations directions time_range.
Proof.
  rewrite !filter_data_passes, filter_filter. apply filter_ext.
  intros r. apply andb_diag.
Qed.

(** The valid rows of a filtered view are the filtered valid rows. *)
Lemma valid_filter_data (df : list LongRecord) (weekday_arg : option string)
    (lines stations directions : option (list string))
    (time_range : option (Z * Z)) :
  valid (filter_data df weekday_arg lines stations directions time_range)
  = filter_data (valid df) weekday_arg lines stations directions time_range.
Proof.
  unfold valid. rewrite !filter_data_passes, !filter_filter.
  apply filter_ext. intros r. apply andb_comm.
Qed.

(** ** data.py: options and the slot-to-order mapping *)

Section UniqueFacts.
Context {A K : Type}.
Variable cmp : A -> A -> comparison.
Variable key : A -> K.
Hypothesis cmp_key : forall a b, cmp a b = Eq <-> key a = key b.

Lemma same_key_iff (a b : A) : same_key cmp a b = true <-> key a = key b.
Proof.
  unfold same_key. rewrite <- cmp_key. destruct (cmp a b); split; congruence.
Qed.

Lemma unique_incl (l : list A) (a : A) : In a (unique cmp l) -> In a l.
Proof.
  induction l as [|b l IH]; simpl; [tauto|].
  intros [H|H]; [tauto|]. apply filter_In in H. right. apply IH. tauto.
Qed.

Lemma unique_keys (l : list A) (k : K) :
  In k (map key (unique cmp l)) <-> In k (map key l).
Proof.
  induction l as [|b l IH]; simpl; [tauto|].
  rewrite <- IH, !in_map_iff. split.
  - intros [H|[a [Ha Hin]]]; [tauto|]. apply filter_In in Hin.
    right. exists a. tauto.
  - intros [H|[a [Ha Hin]]]; [tauto|].
    destruct (same_key cmp b a) eqn:E.
    + left. apply same_key_iff in E. congruence.
    + right. exists a. rewrite filter_In, E. tauto.
Qed.

Lemma unique_NoDup (l : list A) : NoDup (map key (unique cmp l)).
Proof.
  induction l as [|b l IH]; simpl; constructor.
  - rewrite in_map_iff. intros [a [Ha Hin]]. apply filter_In in Hin.
    destruct Hin as [_ Hne]. symmetry in Ha. apply same_key_iff in Ha.
    rewrite Ha in Hne. discriminate.
  - clear -IH. induction (unique cmp l) as [|a u IHu]; simpl; [constructor|].
    inversion IH; subst. destruct (negb (same_key cmp b a)); simpl; auto.
    constructor; auto. rewrite in_map_iff in *. intros [c [Hc Hin]].
    apply filter_In in Hin. destruct Hin as [Hin _]. eauto.
Qed.
End UniqueFacts.

Lemma string_cmp_key (a b : string) : String.compare a b = Eq <-> a = b.
Proof.
  split; [apply String.compare_eq_iff|]. intros ->. apply string_compare_refl.
Qed.

Lemma cmp_slot_key (a b : LongRecord) : cmp_slot a b = Eq <-> time_slot a = time_slot b.
Proof. apply string_cmp_key. Qed.

Lemma cmp_pair_key (a b : string * Z) : cmp_pair a b = Eq <-> a = b.
Proof.
  destruct a as [s x], b as [t y]. unfold cmp_pair. simpl. split.
  - destruct (String.compare s t) eqn:E; simpl; try discriminate.
    intros H. apply String.compare_eq_iff in E. apply Z.compare_eq_iff in H.
    congruence.
  - intros H. inversion H; subst. rewrite string_compare_refl. simpl.
    apply Z.compare_refl.
Qed.

Lemma sorted_unique_spec (v : list string) :
  NoDup (sorted_unique v)
  /\ (forall x, In x (sorted_unique v) <-> In x v)
  /\ StronglySorted (fun a b => String.compare a b = Lt) (sorted_unique v).
Proof.
  unfold sorted_unique.
  assert (Hnd : NoDup (sort_values String.compare (unique String.compare v))).
  { eapply Permutation_NoDup; [apply sort_values_perm|].
    rewrite <- (map_id (unique String.compare v)).
    apply (unique_NoDup String.compare (fun s => s)), string_cmp_key. }
  split; [exact Hnd|]. split.
  - intros x. rewrite <- (unique_In v x). split; intros H.
    + eapply Permutation_in; [apply Permutation_sym, sort_values_perm|exact H].
    + eapply Permutation_in; [apply sort_values_perm|exact H].
  - assert (Hs : StronglySorted (fun a b => le_of String.compare a b = true)
                   (sort_values String.compare (unique String.compare v))).
    { apply (sort_values_strongly_sorted _ String.compare_antisym (fun _ => True)).
      - intros a b c _ _ _. unfold le_of.
        destruct (String.compare a b) eqn:Eab; try discriminate;
          destruct (String.compare b c) eqn:Ebc; try discriminate; intros _ _.
        + apply String.compare_eq_iff in Eab, Ebc. subst.
          rewrite string_compare_refl. reflexivity.
        + apply String.compare_eq_iff in Eab. subst. rewrite Ebc. reflexivity.
        + apply String.compare_eq_iff in Ebc. subst. rewrite Eab. reflexivity.
        + rewrite (string_compare_lt_trans a b c Eab Ebc). reflexivity.
      - apply Forall_forall. intros; exact I. }
    induction Hs as [|a l Hs IH Hall]; constructor.
    + apply IH. inversion Hnd; assumption.
    + inversion Hnd as [|? ? Hnotin _]; subst.
      rewrite Forall_forall in *. intros b Hb. specialize (Hall b Hb).
      unfold le_of in Hall. destruct (String.compare a b) eqn:E;
        [|reflexivity|discriminate].
      apply String.compare_eq_iff in E. subst. contradiction.
Qed.


Lemma order_of_In (m : OrderMap) (k : string) (v : Z) :
  order_of m k = OK v -> In (k, v) m.
Proof.
  induction m as [|[k' v'] m IH]; simpl; [discriminate|].
  destruct (String.eqb_spec k k') as [->|_].
  - intros H. inversion H. tauto.
  - intros H. right. apply IH, H.
Qed.

Lemma order_of_found (m : OrderMap) (k : string) (v : Z) :
  In (k, v) m -> exists v', order_of m k = OK v'.
Proof.
  induction m as [|[k' v'] m IH]; simpl; [tauto|].
  intros H. destruct (String.eqb_spec k k') as [->|Hne]; [eauto|].
  destruct H as [H|H]; [congruence|]. apply IH, H.
Qed.

Lemma order_of_missing (m : OrderMap) (k : string) :
  (forall v, ~ In (k, v) m) -> order_of m k = Raise (KeyError k).
Proof.
  induction m as [|[k' v'] m IH]; simpl; [reflexivity|].
  intros H. destruct (String.eqb_spec k k') as [->|_].
  - exfalso. apply (H v'). tauto.
  - apply IH. intros v Hv. apply (H v). tauto.
Qed.

Lemma mapping_pairs (df : list LongRecord) (k : string) (v : Z) :
  In (k, v) (get_time_order_mapping df)
  <-> exists r, In r df /\ time_slot r = k /\ time_order r = v.
Proof.
  unfold get_time_order_mapping, to_dict. rewrite <- in_rev.
  rewrite <- (map_id (unique cmp_pair _)).
  rewrite (unique_keys cmp_pair (fun p => p) cmp_pair_key), map_id, in_map_iff.
  split.
  - intros [r [Hr Hin]]. inversion Hr. eauto.
  - intros [r [Hin [<- <-]]]. eauto.
Qed.

(** Looking a time slot up in the mapping gives the time order of a row
    with that slot, and of every such row when the slot determines the
    order; a slot that no row has is a [KeyError]. *)
Theorem time_order_mapping_lookup (df : list LongRecord) :
  (forall k v, order_of (get_time_order_mapping df) k = OK v ->
     exists r, In r df /\ time_slot r = k /\ time_order r = v)
  /\ (forall r, In r df ->
        exists v, order_of (get_time_order_mapping df) (time_slot r) = OK v)
  /\ (slot_determines_order df ->
      forall r, In r df ->
        order_of (get_time_order_mapping df) (time_slot r) = OK (time_order r))
  /\ (forall k, (forall r, In r df -> time_slot r <> k) ->
        order_of (get_time_order_mapping df) k = Raise (KeyError k)).
Proof.
  assert (H1 : forall k v, order_of (get_time_order_mapping df) k = OK v ->
                 exists r, In r df /\ time_slot r = k /\ time_order r = v).
  { intros k v H. apply mapping_pairs, order_of_In, H. }
  assert (H2 : forall r, In r df ->
                 exists v, order_of (get_time_order_mapping df) (time_slot r) = OK v).
  { intros r Hr. apply (order_of_found _ _ (time_order r)).
    apply mapping_pairs. eauto. }
  split; [exact H1|]. split; [exact H2|]. split.
  - intros Hdet r Hr. destruct (H2 r Hr) as [v Hv]. rewrite Hv. f_equal.
    destruct (H1 _ _ Hv) as [r' [Hr' [Hslot <-]]]. apply Hdet; assumption.
  - intros k Hk. apply order_of_missing. intros v Hv.
    apply mapping_pairs in Hv. destruct Hv as [r [Hr [Hslot _]]].
    exact (Hk r Hr Hslot).
Qed.

Lemma sample_view_slot_determines_order : slot_determines_order sample_view.
Proof.
  assert (H : forallb (fun r1 =>
                forallb (fun r2 =>
                  negb (String.eqb (time_slot r1) (time_slot r2))
                  || Z.eqb (time_order r1) (time_order r2)) sample_view)
                sample_view = true) by (vm_compute; reflexivity).
  intros r1 r2 H1 H2 Hs. rewrite forallb_forall in H.
  specialize (H r1 H1). rewrite forallb_forall in H. specialize (H r2 H2).
  apply String.eqb_eq in Hs. rewrite Hs in H. simpl in H.
  apply Z.eqb_eq, H.
Defined.

(** ** etl.py: the time-order map *)

Lemma time_map_step (time_cols : list string) (s : Z) (m : TimeMap) :
  fold_left
    (fun time_map '(idx, time_col) =>
       dict_set time_map time_col
         {| normalized := normalize_time_slot time_col; order := idx |})
    (enumerate_from s time_cols) m
  = match time_cols with
    | [] => m
    | c :: cs =>
        fold_left
          (fun time_map '(idx, time_col) =>
             dict_set time_map time_col
               {| normalized := normalize_time_slot time_col; order := idx |})
          (enumerate_from (s + 1) cs) (dict_set m c (entry_at c s))
    end.
Proof. destruct time_cols; reflexivity. Qed.

Lemma time_map_other (time_cols : list string) (s : Z) (m : TimeMap) (k : string) :
  ~ In k time_cols ->
  dict_get
    (fold_left
       (fun time_map '(idx, time_col) =>
          dict_set time_map time_col
            {| normalized := normalize_time_slot time_col; order := idx |})
       (enumerate_from s time_cols) m) k
  = dict_get m k.
Proof.
  revert s m. induction time_cols as [|c cs IH]; intros s m Hk; [reflexivity|].
  rewrite time_map_step, IH by (simpl in Hk; tauto).
  simpl. destruct (String.eqb_spec k c) as [->|_]; [|reflexivity].
  simpl in Hk. tauto.
Qed.

Lemma time_map_found (time_cols : list string) (s : Z) (m : TimeMap)
    (k : string) (e : TimeEntry) :
  dict_get
    (fold_left
       (fun time_map '(idx, time_col) =>
          dict_set time_map time_col
            {| normalized := normalize_time_slot time_col; order := idx |})
       (enumerate_from s time_cols) m) k = OK e ->
  (exists i, nth_error time_cols i = Some k /\ e = entry_at k (s + Z.of_nat i))
  \/ dict_get m k = OK e.
Proof.
  revert s m. induction time_cols as [|c cs IH]; intros s m H; [tauto|].
  rewrite time_map_step in H. apply IH in H. destruct H as [[i [Hi He]]|H].
  - left. exists (S i). split; [exact Hi|]. rewrite He. f_equal. lia.
  - simpl in H. destruct (String.eqb_spec k c) as [->|_]; [|tauto].
    left. exists O. inversion H. split; [reflexivity|]. f_equal. lia.
Qed.

Lemma time_map_present (time_cols : list string) (s : Z) (m : TimeMap) (k : string) :
  In k time_cols ->
  exists e,
    dict_get
      (fold_left
         (fun time_map '(idx, time_col) =>
            dict_set time_map time_col
              {| normalized := normalize_time_slot time_col; order := idx |})
         (enumerate_from s time_cols) m) k = OK e.
Proof.
  revert s m. induction time_cols as [|c cs IH]; intros s m Hk; [contradiction|].
  rewrite time_map_step.
  destruct (in_dec string_dec k cs) as [Hin|Hout]; [apply IH, Hin|].
  rewrite time_map_other by exact Hout.
  destruct Hk as [->|Hk]; [|contradiction].
  simpl. rewrite String.eqb_refl. eauto.
Qed.

Lemma time_map_entry (time_cols : list string) (k : string) (e : TimeEntry) :
  dict_get (create_time_order_map time_cols) k = OK e ->
  exists i, nth_error time_cols i = Some k /\ e = entry_at k (Z.of_nat i).
Proof.
  intros H. apply time_map_found in H. destruct H as [H|H]; [exact H|].
  discriminate H.
Qed.

(** The time-order map gives each detected header its normalized slot and
    its position among the detected headers, counted from 0; a header that
    was not detected is a [KeyError]. *)
Theorem time_order_is_header_position (time_cols : list string) :
  (forall k e, dict_get (create_time_order_map time_cols) k = OK e ->
     exists i, nth_error time_cols i = Some k
               /\ order e = Z.of_nat i
               /\ normalized e = normalize_time_slot k)
  /\ (forall k, In k time_cols ->
        exists e, dict_get (create_time_order_map time_cols) k = OK e)
  /\ (NoDup time_cols ->
      forall i k, nth_error time_cols i = Some k ->
        dict_get (create_time_order_map time_cols) k
        = OK {| normalized := normalize_time_slot k; order := Z.of_nat i |})
  /\ (forall k, ~ In k time_cols ->
        dict_get (create_time_order_map time_cols) k = Raise (KeyError k)).
Proof.
  split; [|split; [|split]].
  - intros k e H. destruct (time_map_entry _ _ _ H) as [i [Hi ->]].
    exists i. auto.
  - intros k Hk. apply time_map_present, Hk.
  - intros Hnd i k Hi.
    destruct (time_map_present time_cols 0 [] k) as [e He];
      [eapply nth_error_In, Hi|].
    unfold create_time_order_map. rewrite He. f_equal.
    destruct (time_map_entry _ _ _ He) as [j [Hj ->]].
    assert (i = j); [|subst; reflexivity].
    apply (proj1 (NoDup_nth_error time_cols) Hnd);
      [apply nth_error_Some; congruence|congruence].
  - intros k Hk. unfold create_time_order_map. rewrite time_map_other by exact Hk.
    reflexivity.
Qed.

Lemma time_order_is_header_position_witness :
  dict_get (create_time_order_map ["5시30분"; "6시00분"; "1시00분"]) "6시00분"
  = OK {| normalized := "06:00"; order := 1 |}.
Proof.
  assert (Hnd : NoDup ["5시30분"; "6시00분"; "1시00분"]).
  { repeat constructor; simpl; intros H;
      repeat (destruct H as [H|H]; [discriminate H|]); exact H. }
  exact (proj1 (proj2 (proj2
           (time_order_is_header_position ["5시30분"; "6시00분"; "1시00분"])))
           Hnd 1%nat "6시00분" eq_refl).
Defined.

(** ** etl.py: normalized slots and hours *)

Lemma digit_char (r : N) :
  (r < 10)%N ->
  is_digit (ascii_of_N (48 + r)) = true
  /\ digit_value (ascii_of_N (48 + r)) = Z.of_N r.
Proof.
  intros H.
  assert (Hr : (r = 0 \/ r = 1 \/ r = 2 \/ r = 3 \/ r = 4 \/ r = 5 \/ r = 6
                \/ r = 7 \/ r = 8 \/ r = 9)%N) by lia.
  repeat (destruct Hr as [->|Hr]; [split; reflexivity|]).
  subst. split; reflexivity.
Qed.

Lemma span_digits_digits_only (s d r : string) :
  span_digits s = (d, r) -> digits_only d = true.
Proof.
  revert d r. induction s as [|c s IH]; simpl; intros d r H.
  - inversion H. reflexivity.
  - destruct (is_digit c) eqn:E.
    + destruct (span_digits s) as [d' r'] eqn:Es. inversion H; subst.
      simpl. rewrite E. simpl. eapply IH. reflexivity.
    + inversion H. reflexivity.
Qed.

Lemma span_digits_all (d : string) :
  digits_only d = true -> span_digits d = (d, EmptyString).
Proof.
  induction d as [|c d IH]; simpl; [reflexivity|].
  intros H. apply andb_true_iff in H. destruct H as [Hc Hd].
  rewrite Hc, (IH Hd). reflexivity.
Qed.

Lemma digit_not_colon (c : ascii) : is_digit c = true -> Ascii.eqb c ":" = false.
Proof.
  intros H. destruct (Ascii.eqb_spec c ":") as [->|_]; [|reflexivity].
  discriminate H.
Qed.

Lemma before_colon_digits (d rest : string) :
  digits_only d = true -> before_colon (d ++ String ":" rest) = d.
Proof.
  induction d as [|c d IH]; simpl; [reflexivity|].
  intros H. apply andb_true_iff in H. destruct H as [Hc Hd].
  rewrite (digit_not_colon c Hc), (IH Hd). reflexivity.
Qed.

Lemma int_digits_app (a : Z) (d1 d2 : string) :
  int_digits a (d1 ++ d2) = int_digits (int_digits a d1) d2.
Proof. revert a. induction d1 as [|c d1 IH]; simpl; intros a; auto. Qed.

Lemma digits_only_app (d1 d2 : string) :
  digits_only (d1 ++ d2) = digits_only d1 && digits_only d2.
Proof.
  induction d1 as [|c d1 IH]; simpl; [reflexivity|].
  rewrite IH, andb_assoc. reflexivity.
Qed.

Lemma string_app_assoc (a b c : string) : ((a ++ b) ++ c = a ++ (b ++ c))%string.
Proof. induction a as [|x a IH]; simpl; [reflexivity|]. rewrite IH. reflexivity. Qed.

Lemma string_length_app (a b : string) :
  String.length (a ++ b) = (String.length a + String.length b)%nat.
Proof. induction a as [|x a IH]; simpl; [reflexivity|]. rewrite IH. reflexivity. Qed.

Lemma digits_fuel_spec (fuel : nat) (n : N) (acc : string) :
  (n < 10 ^ N.of_nat fuel)%N ->
  exists d,
    digits_fuel fuel n acc = (d ++ acc)%string
    /\ digits_only d = true
    /\ (fuel <> O -> d <> EmptyString)
    /\ forall a, int_digits a d = (a * 10 ^ Z.of_nat (String.length d) + Z.of_N n)%Z.
Proof.
  revert n acc. induction fuel as [|f IH]; intros n acc Hn.
  - exists EmptyString. simpl in *. repeat split; try congruence.
    intros a. simpl. lia.
  - cbn [digits_fuel].
    destruct (digit_char (n mod 10)) as [Hd Hv]; [apply N.mod_lt; lia|].
    set (c := ascii_of_N (48 + n mod 10)) in *.
    destruct (N.ltb_spec n 10) as [Hlt|Hge].
    + exists (String c EmptyString).
      cbn [append digits_only String.length int_digits]. rewrite Hd.
      repeat split; try discriminate.
      intros a. rewrite Hv. rewrite N.mod_small by exact Hlt.
      change (Z.of_nat 1) with 1%Z. lia.
    + destruct (IH (n / 10)%N (String c acc)) as [d [Hd1 [Hd2 [_ Hd3]]]].
      { apply N.Div0.div_lt_upper_bound.
        replace (N.of_nat (S f)) with (N.succ (N.of_nat f)) in Hn by lia.
        rewrite N.pow_succ_r' in Hn. exact Hn. }
      exists (d ++ String c EmptyString)%string.
      split; [rewrite Hd1, string_app_assoc; reflexivity|].
      split; [rewrite digits_only_app, Hd2; cbn [digits_only andb];
              rewrite Hd; reflexivity|].
      split; [intros _ H; destruct d; discriminate H|].
      intros a. rewrite int_digits_app, Hd3, string_length_app.
      cbn [int_digits String.length]. rewrite Hv.
      replace (Z.of_nat (String.length d + 1)) with
        (Z.succ (Z.of_nat (String.length d))) by lia.
      rewrite Z.pow_succ_r by lia.
      rewrite N2Z.inj_div, N2Z.inj_mod. change (Z.of_N 10) with 10%Z.
      pose proof (Z.div_mod (Z.of_N n) 10). lia.
Qed.

Lemma fuel_enough (n : N) : (n < 10 ^ N.of_nat (S (N.to_nat (N.log2 n))))%N.
Proof.
  replace (N.of_nat (S (N.to_nat (N.log2 n)))) with (N.succ (N.log2 n)) by lia.
  destruct (N.eq_dec n 0) as [->|Hn]; [reflexivity|].
  eapply N.lt_le_trans; [apply N.log2_spec; lia|].
  apply N.pow_le_mono_l. lia.
Qed.

Lemma str_of_N_spec (n : N) :
  digits_only (str_of_N n) = true
  /\ str_of_N n <> EmptyString
  /\ int_digits 0 (str_of_N n) = Z.of_N n.
Proof.
  unfold str_of_N.
  destruct (digits_fuel_spec _ n EmptyString (fuel_enough n))
    as [d [Hd1 [Hd2 [Hd3 Hd4]]]].
  assert (Hd : (d ++ "")%string = d).
  { clear. induction d as [|c d IH]; simpl; [reflexivity|]. rewrite IH. reflexivity. }
  rewrite Hd1, Hd. split; [exact Hd2|]. split; [apply Hd3; discriminate|].
  rewrite Hd4. lia.
Qed.

Lemma fmt02d_spec (n : Z) :
  (0 <= n)%Z ->
  digits_only (fmt02d n) = true
  /\ fmt02d n <> EmptyString
  /\ int_digits 0 (fmt02d n) = n.
Proof.
  intros Hn. unfold fmt02d.
  destruct (str_of_N_spec (Z.to_N n)) as [H1 [H2 H3]].
  rewrite Z2N.id in H3 by exact Hn.
  destruct (String.length (str_of_N (Z.to_N n)) <? 2)%nat.
  - split; [|split; [discriminate|]].
    + simpl. exact H1.
    + simpl. exact H3.
  - auto.
Qed.

Lemma int_digits_nonneg (d : string) (a : Z) :
  digits_only d = true -> (0 <= a)%Z -> (0 <= int_digits a d)%Z.
Proof.
  revert a. induction d as [|c d IH]; cbn [digits_only int_digits];
    intros a H Ha; [exact Ha|].
  apply andb_true_iff in H. destruct H as [Hc Hd]. apply IH; [exact Hd|].
  unfold is_digit in Hc. cbv zeta in Hc. apply andb_true_iff in Hc.
  destruct Hc as [Hlo Hhi]. apply Nat.leb_le in Hlo. apply Nat.leb_le in Hhi.
  unfold digit_value. lia.
Qed.

Lemma header_hour_nonneg (col : string) (h : Z) :
  header_hour col = Some h -> (0 <= h)%Z.
Proof.
  unfold header_hour, match_time.
  destruct (span_digits col) as [d r] eqn:E.
  destruct (is_empty d); [discriminate|].
  destruct (strip_prefix "시" r) as [r2|]; [|discriminate].
  destruct (span_digits r2) as [m r3].
  destruct (is_empty m); [discriminate|].
  destruct (strip_prefix "분" r3); [|discriminate].
  intros H. inversion H; subst.
  apply int_digits_nonneg; [|lia]. eapply span_digits_digits_only, E.
Qed.

Lemma normalized_hour_text (col : string) (h : Z) :
  header_hour col = Some h ->
  digits_only (before_colon (normalize_time_slot col)) = true
  /\ before_colon (normalize_time_slot col) <> EmptyString
  /\ int_digits 0 (before_colon (normalize_time_slot col)) = h.
Proof.
  intros H. pose proof (header_hour_nonneg col h H) as Hh.
  unfold header_hour in H. unfold normalize_time_slot.
  destruct (match_time col) as [[d m]|]; [|discriminate].
  inversion H; subst.
  destruct (fmt02d_spec (int_digits 0 d) Hh) as [H1 [H2 H3]].
  change (fmt02d (int_digits 0 d) ++ ":" ++ fmt02d (int_digits 0 m))%string
    with (fmt02d (int_digits 0 d) ++ String ":" (fmt02d (int_digits 0 m)))%string.
  rewrite before_colon_digits by exact H1. auto.
Qed.

(** The hour read back from a normalized time slot is the hour number of
    the header it came from, whenever that number fits an int64. *)
Theorem hour_of_normalized_slot (col : string) (h : Z) :
  header_hour col = Some h ->
  (h < 2 ^ 63)%Z ->
  astype_int (before_colon (normalize_time_slot col)) = OK h.
Proof.
  intros H Hh. destruct (normalized_hour_text col h H) as [H1 [H2 H3]].
  unfold astype_int, all_digits. rewrite (span_digits_all _ H1), H3.
  assert (E : is_empty (before_colon (normalize_time_slot col)) = false).
  { destruct (before_colon (normalize_time_slot col)); [congruence|reflexivity]. }
  rewrite E. cbn [negb andb is_empty].
  destruct (Z.ltb_spec h (2 ^ 63)); [reflexivity|lia].
Qed.

Lemma hour_of_normalized_slot_witness :
  astype_int (before_colon (normalize_time_slot "5시30분")) = OK 5%Z.
Proof.
  apply (hour_of_normalized_slot "5시30분" 5); [reflexivity|reflexivity].
Defined.

(** ** etl.py: the pipeline as a whole *)

Lemma astype_int_value (s : string) (v : Z) :
  astype_int s = OK v -> v = int_digits 0 s.
Proof.
  unfold astype_int. destruct (all_digits s); [|discriminate].
  destruct (int_digits 0 s <? 2 ^ 63)%Z; [|discriminate].
  intros H. inversion H. reflexivity.
Qed.


Lemma time_column_hour (df : WideFrame) (c : string) :
  In c (get_time_columns df) ->
  In c (columns df) /\ exists h, header_hour c = Some h.
Proof.
  unfold get_time_columns. rewrite filter_In. intros [Hin Hp].
  split; [exact Hin|]. unfold time_pattern in Hp. unfold header_hour.
  destruct (match_time c) as [[h m]|]; [eauto|discriminate].
Qed.



Section PipelineFacts.
Variable to_numeric : string -> float.

Lemma add_time_features_rows (df : list CleanRow) (time_map : TimeMap)
    (df_timed : list TimedRow) :
  add_time_features df time_map = OK df_timed ->
  Forall2 (fun c t =>
             cleaned t = c
             /\ exists e,
                  dict_get time_map (time_slot_raw (melted c)) = OK e
                  /\ slot t = normalized e
                  /\ ord t = order e
                  /\ astype_int (before_colon (slot t)) = OK (hr t)
                  /\ per t = get_period (hr t)) df df_timed.
Proof.
  unfold add_time_features. intros H. apply mapM_Forall2 in H.
  induction H as [|c t l l' Hct _ IH]; constructor; [|exact IH].
  destruct (dict_get time_map (time_slot_raw (melted c))) as [e|?] eqn:Ee;
    cbn [bind] in Hct; [|discriminate].
  destruct (astype_int (before_colon (normalized e))) as [h|?] eqn:Eh;
    cbn [bind] in Hct; [|discriminate].
  inversion Hct; subst. cbn. split; [reflexivity|]. exists e. auto.
Qed.



Lemma transform_rows (df : WideFrame) (out : list LongRecord) :
  transform to_numeric df = OK out ->
  Forall (fun r =>
            period r = get_period (hour r)
            /\ exists i c,
                 nth_error (get_time_columns df) i = Some c
                 /\ time_order r = Z.of_nat i
                 /\ time_slot r = normalize_time_slot c
                 /\ header_hour c = Some (hour r)) out.
Proof.
  intros H. apply transform_stages in H.
  destruct H as [df_long [df_timed [Hu [Ht ->]]]].
  unfold save_parquet. apply sort_values_Forall.
  apply Forall_forall. intros r Hr.
  apply in_map_iff in Hr. destruct Hr as [f [<- Hf]].
  unfold rename_columns, handle_missing_values in Hf.
  apply in_map_iff in Hf. destruct Hf as [t [<- Hin]]. cbn.
  apply add_time_features_rows in Ht.
  destruct (Forall2_In_right _ _ _ _ Ht Hin)
    as [c [_ [_ [e [He [Hs [Ho [Hh Hp]]]]]]]].
  split; [exact Hp|].
  destruct (time_map_entry _ _ _ He) as [i [Hi ->]].
  exists i, (time_slot_raw (melted c)). split; [exact Hi|].
  split; [exact Ho|]. split; [exact Hs|].
  destruct (time_column_hour df _ (nth_error_In _ _ Hi)) as [_ [h Hhh]].
  rewrite Hhh. f_equal. apply astype_int_value in Hh. rewrite Hh, Hs.
  symmetry. apply (normalized_hour_text _ _ Hhh).
Qed.
End PipelineFacts.

(** ** Orders built from text and integer comparisons *)


Lemma order_like_Z : order_like Z.compare.
Proof.
  repeat split; intros a b c Hab Hbc;
    rewrite ?Z.compare_eq_iff, ?Z.compare_lt_iff in *; lia.
Qed.

Lemma order_like_on {A B : Type} (cmp : B -> B -> comparison) (f : A -> B) :
  order_like cmp -> order_like (fun a b => cmp (f a) (f b)).
Proof.
  intros [H1 [H2 [H3 H4]]]. repeat split; intros a b c; cbv beta;
    [apply H1|apply H2|apply H3|apply H4].
Qed.


Lemma order_like_le_trans {A : Type} (cmp : A -> A -> comparison) :
  order_like cmp ->
  forall a b c, le_of cmp a b = true -> le_of cmp b c = true ->
                le_of cmp a c = true.
Proof.
  intros [E [EL [LE L]]] a b c. unfold le_of.
  destruct (cmp a b) eqn:Hab; try discriminate;
    destruct (cmp b c) eqn:Hbc; try discriminate; intros _ _.
  - rewrite (E a b c Hab Hbc). reflexivity.
  - rewrite (EL a b c Hab Hbc). reflexivity.
  - rewrite (LE a b c Hab Hbc). reflexivity.
  - rewrite (L a b c Hab Hbc). reflexivity.
Qed.



(** ** etl.py: what the job persists *)




(** In the persisted table the period of a row is [get_period] of its
    hour, its time slot is the normalized header of a detected time column,
    its time order is the position of that column among the detected ones,
    and its hour is the hour number of that header. *)
Theorem persisted_time_features (to_numeric : string -> float)
    (df : WideFrame) (out : list LongRecord) :
  transform to_numeric df = OK out ->
  Forall (fun r =>
            period r = get_period (hour r)
            /\ exists i c,
                 nth_error (get_time_columns df) i = Some c
                 /\ time_order r = Z.of_nat i
                 /\ time_slot r = normalize_time_slot c
                 /\ header_hour c = Some (hour r)) out.
Proof. apply transform_rows. Qed.

Lemma persisted_time_features_witness :
  exists out,
    transform sample_to_numeric sample_wide = OK out
    /\ Forall (fun r =>
                 period r = get_period (hour r)
                 /\ exists i c,
                      nth_error (get_time_columns sample_wide) i = Some c
                      /\ time_order r = Z.of_nat i
                      /\ time_slot r = normalize_time_slot c
                      /\ header_hour c = Some (hour r)) out.
Proof.
  eexists. split; [vm_compute; reflexivity|].
  apply (persisted_time_features sample_to_numeric sample_wide).
  vm_compute. reflexivity.
Defined.

(** Two persisted rows with the same time order have the same time slot,
    hour and period: no two distinct slots share an order. *)
Theorem time_order_determines_slot (to_numeric : string -> float)
    (df : WideFrame) (out : list LongRecord) :
  transform to_numeric df = OK out ->
  forall r1 r2, In r1 out -> In r2 out ->
    time_order r1 = time_order r2 ->
    time_slot r1 = time_slot r2 /\ hour r1 = hour r2 /\ period r1 = period r2.
Proof.
  intros H r1 r2 H1 H2 Ho. apply transform_rows in H.
  rewrite Forall_forall in H.
  destruct (H r1 H1) as [Hp1 [i1 [c1 [Hi1 [Ho1 [Hs1 Hh1]]]]]].
  destruct (H r2 H2) as [Hp2 [i2 [c2 [Hi2 [Ho2 [Hs2 Hh2]]]]]].
  assert (i1 = i2) by lia. subst i2.
  assert (c1 = c2) by congruence. subst c2.
  assert (hour r1 = hour r2) by congruence.
  repeat split; congruence.
Qed.

Lemma time_order_determines_slot_witness :
  exists out,
    transform sample_to_numeric sample_wide = OK out
    /\ forall r1 r2, In r1 out -> In r2 out ->
         time_order r1 = time_order r2 ->
         time_slot r1 = time_slot r2 /\ hour r1 = hour r2 /\ period r1 = period r2.
Proof.
  eexists. split; [vm_compute; reflexivity|].
  apply (time_order_determines_slot sample_to_numeric sample_wide).
  vm_compute. reflexivity.
Defined.



Lemma col_index_Some_In (c : string) (cols : list string) (i : nat) :
  col_index c cols = Some i -> In c cols.
Proof.
  revert i. induction cols as [|c' cols IH]; simpl; intros i H; [discriminate|].
  destruct (String.eqb_spec c c') as [->|_]; [tauto|].
  destruct (col_index c cols) as [j|]; [|discriminate]. right. eapply IH. reflexivity.
Qed.

(** A source frame that lacks one of the five identifier columns ends the
    job with a [KeyError] naming a missing identifier column, whatever its
    time columns are; nothing is persisted. *)
Theorem missing_id_column_is_key_error (to_numeric : string -> float)
    (raw_data_dir : list RawFile) (raw_data_path : RawFile) (df : WideFrame) :
  find_csv_file raw_data_dir = OK raw_data_path ->
  load_csv raw_data_path = OK df ->
  mem "congestion_raw" (columns df) = false ->
  (exists c, In c id_cols /\ ~ In c (columns df)) ->
  exists c,
    In c id_cols /\ ~ In c (columns df)
    /\ main to_numeric raw_data_dir = Raise (KeyError c).
Proof.
  intros Hf Hl Hv [c0 [Hc0 Hmiss]].
  unfold main. rewrite Hf. cbn [bind]. rewrite Hl. cbn [bind].
  unfold transform, unpivot_time_columns, locate. rewrite Hv.
  destruct (col_index "요일구분" (columns df)) as [i1|] eqn:E1;
    [|exists "요일구분"; split; [simpl; tauto|]; split; [|reflexivity];
      intros H; apply col_index_In in H; destruct H as [i H]; congruence].
  destruct (col_index "호선" (columns df)) as [i2|] eqn:E2;
    [|exists "호선"; split; [simpl; tauto|]; split; [|reflexivity];
      intros H; apply col_index_In in H; destruct H as [i H]; congruence].
  destruct (col_index "역번호" (columns df)) as [i3|] eqn:E3;
    [|exists "역번호"; split; [simpl; tauto|]; split; [|reflexivity];
      intros H; apply col_index_In in H; destruct H as [i H]; congruence].
  destruct (col_index "출발역" (columns df)) as [i4|] eqn:E4;
    [|exists "출발역"; split; [simpl; tauto|]; split; [|reflexivity];
      intros H; apply col_index_In in H; destruct H as [i H]; congruence].
  destruct (col_index "상하구분" (columns df)) as [i5|] eqn:E5;
    [|exists "상하구분"; split; [simpl; tauto|]; split; [|reflexivity];
      intros H; apply col_index_In in H; destruct H as [i H]; congruence].
  exfalso. apply Hmiss. simpl in Hc0.
  repeat (destruct Hc0 as [<-|Hc0]; [eapply col_index_Some_In; eassumption|]).
  contradiction.
Qed.

Lemma missing_id_column_is_key_error_witness :
  exists c,
    In c id_cols /\ ~ In c ["요일구분"; "호선"; "5시30분"]
    /\ main sample_to_numeric
         [fun _ => Parsed {| columns := ["요일구분"; "호선"; "5시30분"];
                             rows := [["평일"; "1호선"; "12.5"]] |}]
       = Raise (KeyError c).
Proof.
  apply (missing_id_column_is_key_error sample_to_numeric
           [fun _ => Parsed {| columns := ["요일구분"; "호선"; "5시30분"];
                               rows := [["평일"; "1호선"; "12.5"]] |}]
           (fun _ => Parsed {| columns := ["요일구분"; "호선"; "5시30분"];
                               rows := [["평일"; "1호선"; "12.5"]] |})
           {| columns := ["요일구분"; "호선"; "5시30분"];
              rows := [["평일"; "1호선"; "12.5"]] |}).
  - reflexivity.
  - reflexivity.
  - reflexivity.
  - exists "역번호". split; [simpl; tauto|].
    simpl. intros H. repeat (destruct H as [H|H]; [discriminate H|]). exact H.
Defined.

Lemma time_order_mapping_lookup_witness :
  order_of (get_time_order_mapping sample_view) "07:00" = OK 2%Z.
Proof.
  apply (proj1 (proj2 (proj2 (time_order_mapping_lookup sample_view)))
           sample_view_slot_determines_order
           (sample_record "서울역" "1호선" "07:00" 2 80%float 7 false)).
  simpl. tauto.
Defined.

(** ** Order of float64 values *)

Ltac sf_compare_cases :=
  repeat match goal with
  | H : context [Pos.compare_cont Eq ?x ?y] |- _ =>
      change (Pos.compare_cont Eq x y) with (Pos.compare x y) in H
  | |- context [Pos.compare_cont Eq ?x ?y] =>
      change (Pos.compare_cont Eq x y) with (Pos.compare x y)
  end;
  repeat match goal with
  | H : context [Z.compare ?x ?y] |- _ => destruct (Z.compare_spec x y); simpl in H
  | |- context [Z.compare ?x ?y] => destruct (Z.compare_spec x y); simpl
  | H : context [Pos.compare ?x ?y] |- _ => destruct (Pos.compare_spec x y); simpl in H
  | |- context [Pos.compare ?x ?y] => destruct (Pos.compare_spec x y); simpl
  end;
  try congruence; try lia.

Lemma SFcompare_antisym (a b : spec_float) :
  SFcompare b a = option_map CompOpp (SFcompare a b).
Proof.
  destruct a as [[|]|[|]| |[|] ma ea], b as [[|]|[|]| |[|] mb eb];
    simpl; try reflexivity; f_equal; sf_compare_cases.
Qed.

Lemma SFcompare_lt_trans (a b c : spec_float) :
  SFcompare a b = Some Lt -> SFcompare b c = Some Lt -> SFcompare a c = Some Lt.
Proof.
  destruct a as [[|]|[|]| |[|] ma ea], b as [[|]|[|]| |[|] mb eb],
    c as [[|]|[|]| |[|] mc ec]; simpl; try congruence;
    intros Hab Hbc; f_equal; injection Hab as Hab; injection Hbc as Hbc;
    sf_compare_cases.
Qed.

Lemma SFcompare_eq_lt (a b c : spec_float) :
  SFcompare a b = Some Eq -> SFcompare b c = Some Lt -> SFcompare a c = Some Lt.
Proof.
  destruct a as [[|]|[|]| |[|] ma ea], b as [[|]|[|]| |[|] mb eb],
    c as [[|]|[|]| |[|] mc ec]; simpl; try congruence;
    intros Hab Hbc; f_equal; injection Hab as Hab; injection Hbc as Hbc;
    sf_compare_cases.
Qed.

Lemma SFcompare_lt_eq (a b c : spec_float) :
  SFcompare a b = Some Lt -> SFcompare b c = Some Eq -> SFcompare a c = Some Lt.
Proof.
  destruct a as [[|]|[|]| |[|] ma ea], b as [[|]|[|]| |[|] mb eb],
    c as [[|]|[|]| |[|] mc ec]; simpl; try congruence;
    intros Hab Hbc; f_equal; injection Hab as Hab; injection Hbc as Hbc;
    sf_compare_cases.
Qed.

Lemma SFcompare_eq_eq (a b c : spec_float) :
  SFcompare a b = Some Eq -> SFcompare b c = Some Eq -> SFcompare a c = Some Eq.
Proof.
  destruct a as [[|]|[|]| |[|] ma ea], b as [[|]|[|]| |[|] mb eb],
    c as [[|]|[|]| |[|] mc ec]; simpl; try congruence;
    intros Hab Hbc; f_equal; injection Hab as Hab; injection Hbc as Hbc;
    sf_compare_cases.
Qed.

Lemma SFcompare_refl (a : spec_float) : a <> S754_nan -> SFcompare a a = Some Eq.
Proof.
  destruct a as [[|]|[|]| |[|] ma ea]; simpl; try congruence; intros _; f_equal;
    rewrite Z.compare_refl;
    change (Pos.compare_cont Eq ma ma) with (Pos.compare ma ma);
    rewrite Pos.compare_refl; reflexivity.
Qed.

Lemma SFcompare_nan (a b : spec_float) :
  SFcompare a b = None <-> a = S754_nan \/ b = S754_nan.
Proof.
  destruct a as [[|]|[|]| |[|] ma ea], b as [[|]|[|]| |[|] mb eb]; simpl;
    split; intros H; try discriminate; try tauto;
    destruct H as [H|H]; discriminate H.
Qed.

Lemma is_nan_spec (x : float) :
  PrimFloat.is_nan x = true <-> Prim2SF x = S754_nan.
Proof.
  unfold PrimFloat.is_nan. rewrite FloatAxioms.eqb_spec. unfold SFeqb.
  destruct (SFcompare (Prim2SF x) (Prim2SF x)) as [c|] eqn:E.
  - assert (Hx : Prim2SF x <> S754_nan).
    { intros H. rewrite H in E. discriminate E. }
    rewrite (SFcompare_refl _ Hx) in E. injection E as <-. simpl.
    split; [discriminate|contradiction].
  - apply SFcompare_nan in E. simpl. split; [tauto|reflexivity].
Qed.

Lemma not_nan_spec (x : float) :
  PrimFloat.is_nan x = false <-> Prim2SF x <> S754_nan.
Proof.
  rewrite <- is_nan_spec. destruct (PrimFloat.is_nan x); split; congruence.
Qed.

Lemma float_ltb_trans (a b c : float) :
  PrimFloat.ltb a b = true -> PrimFloat.ltb b c = true -> PrimFloat.ltb a c = true.
Proof.
  rewrite !FloatAxioms.ltb_spec. unfold SFltb.
  destruct (SFcompare (Prim2SF a) (Prim2SF b)) as [[]|] eqn:Eab; try discriminate.
  destruct (SFcompare (Prim2SF b) (Prim2SF c)) as [[]|] eqn:Ebc; try discriminate.
  rewrite (SFcompare_lt_trans _ _ _ Eab Ebc). reflexivity.
Qed.

Lemma float_leb_ltb_trans (a b c : float) :
  PrimFloat.leb a b = true -> PrimFloat.ltb b c = true -> PrimFloat.ltb a c = true.
Proof.
  rewrite FloatAxioms.leb_spec, !FloatAxioms.ltb_spec. unfold SFleb, SFltb.
  destruct (SFcompare (Prim2SF a) (Prim2SF b)) as [[]|] eqn:Eab; try discriminate;
    destruct (SFcompare (Prim2SF b) (Prim2SF c)) as [[]|] eqn:Ebc; try discriminate;
    intros _ _.
  - rewrite (SFcompare_eq_lt _ _ _ Eab Ebc). reflexivity.
  - rewrite (SFcompare_lt_trans _ _ _ Eab Ebc). reflexivity.
Qed.

Lemma float_leb_trans (a b c : float) :
  PrimFloat.leb a b = true -> PrimFloat.leb b c = true -> PrimFloat.leb a c = true.
Proof.
  rewrite !FloatAxioms.leb_spec. unfold SFleb.
  destruct (SFcompare (Prim2SF a) (Prim2SF b)) as [[]|] eqn:Eab; try discriminate;
    destruct (SFcompare (Prim2SF b) (Prim2SF c)) as [[]|] eqn:Ebc; try discriminate;
    intros _ _.
  - rewrite (SFcompare_eq_eq _ _ _ Eab Ebc). reflexivity.
  - rewrite (SFcompare_eq_lt _ _ _ Eab Ebc). reflexivity.
  - rewrite (SFcompare_lt_eq _ _ _ Eab Ebc). reflexivity.
  - rewrite (SFcompare_lt_trans _ _ _ Eab Ebc). reflexivity.
Qed.

Lemma float_ltb_leb (a b : float) :
  PrimFloat.ltb a b = true -> PrimFloat.leb a b = true.
Proof.
  rewrite FloatAxioms.ltb_spec, FloatAxioms.leb_spec. unfold SFltb, SFleb.
  destruct (SFcompare (Prim2SF a) (Prim2SF b)) as [[]|]; congruence.
Qed.

Lemma float_not_ltb_leb (a b : float) :
  PrimFloat.is_nan a = false -> PrimFloat.is_nan b = false ->
  PrimFloat.ltb a b = false -> PrimFloat.leb b a = true.
Proof.
  rewrite !not_nan_spec, FloatAxioms.ltb_spec, FloatAxioms.leb_spec. unfold SFltb, SFleb.
  intros Ha Hb. rewrite (SFcompare_antisym (Prim2SF a) (Prim2SF b)).
  destruct (SFcompare (Prim2SF a) (Prim2SF b)) as [[]|] eqn:E; simpl;
    try congruence.
  apply SFcompare_nan in E. tauto.
Qed.

Lemma float_leb_refl (a : float) :
  PrimFloat.is_nan a = false -> PrimFloat.leb a a = true.
Proof.
  rewrite not_nan_spec, FloatAxioms.leb_spec. unfold SFleb. intros Ha.
  rewrite (SFcompare_refl _ Ha). reflexivity.
Qed.

Lemma float_leb_nan_l (a x : float) :
  PrimFloat.is_nan a = true -> PrimFloat.leb a x = false.
Proof.
  rewrite is_nan_spec, FloatAxioms.leb_spec. intros ->. reflexivity.
Qed.

Lemma float_add_nan_r (a b : float) :
  PrimFloat.is_nan b = true -> PrimFloat.is_nan (a + b) = true.
Proof.
  rewrite !is_nan_spec, FloatAxioms.add_spec. intros ->.
  unfold SF64add, SFadd. destruct (Prim2SF a); reflexivity.
Qed.

Lemma fcmp_antisym (a b : float) : fcmp a b = CompOpp (fcmp b a).
Proof.
  unfold fcmp. rewrite !FloatAxioms.compare_spec.
  rewrite (SFcompare_antisym (Prim2SF b) (Prim2SF a)).
  destruct (SFcompare (Prim2SF b) (Prim2SF a)) as [[]|]; reflexivity.
Qed.

Lemma fcmp_not_gt (a b : float) :
  le_of fcmp b a = true -> PrimFloat.ltb a b = false.
Proof.
  unfold le_of, fcmp. rewrite FloatAxioms.compare_spec, FloatAxioms.ltb_spec. unfold SFltb.
  rewrite (SFcompare_antisym (Prim2SF b) (Prim2SF a)).
  destruct (SFcompare (Prim2SF b) (Prim2SF a)) as [[]|]; simpl; congruence.
Qed.

(** ** metrics.py: the maximum *)

Lemma argmax_by_first_max {A : Type} (key : A -> float) (rest : list A) (best : A) :
  (forall x, In x (best :: rest) -> PrimFloat.is_nan (key x) = false) ->
  exists pre post,
    best :: rest = pre ++ argmax_by key best rest :: post
    /\ (forall x, In x pre ->
          PrimFloat.ltb (key x) (key (argmax_by key best rest)) = true)
    /\ (forall x, In x post ->
          PrimFloat.leb (key x) (key (argmax_by key best rest)) = true).
Proof.
  revert best. induction rest as [|y rest IH]; intros best Hnum.
  - exists [], []. simpl. repeat split; intros x [].
  - cbn [argmax_by]. destruct (PrimFloat.ltb (key best) (key y)) eqn:E.
    + destruct (IH y) as [pre [post [Heq [Hpre Hpost]]]].
      { intros x Hx. apply Hnum. right. exact Hx. }
      set (res := argmax_by key y rest) in *.
      exists (best :: pre), post. split; [simpl; f_equal; exact Heq|].
      split; [|exact Hpost].
      intros x [<-|Hx]; [|apply Hpre, Hx].
      destruct pre as [|p pre].
      * simpl in Heq. injection Heq as Hy _. rewrite <- Hy. exact E.
      * simpl in Heq. injection Heq as Hy _. subst p.
        eapply float_ltb_trans; [exact E|]. apply Hpre. left. reflexivity.
    + destruct (IH best) as [pre [post [Heq [Hpre Hpost]]]].
      { intros x [<-|Hx]; apply Hnum; simpl; tauto. }
      set (res := argmax_by key best rest) in *.
      assert (Hy : PrimFloat.leb (key y) (key best) = true).
      { apply float_not_ltb_leb; [apply Hnum|apply Hnum|exact E]; simpl; tauto. }
      destruct pre as [|p pre].
      * simpl in Heq. injection Heq as Hb Hpost_eq.
        exists [], (y :: post).
        split; [simpl; f_equal; [exact Hb|f_equal; exact Hpost_eq]|].
        split; [intros x []|].
        intros x [<-|Hx]; [rewrite <- Hb; exact Hy|apply Hpost, Hx].
      * simpl in Heq. injection Heq as Hb Hrest. subst p.
        exists (best :: y :: pre), post.
        split; [simpl; do 2 f_equal; exact Hrest|]. split; [|exact Hpost].
        intros x [<-|[<-|Hx]].
        -- apply Hpre. left. reflexivity.
        -- eapply float_leb_ltb_trans; [exact Hy|]. apply Hpre. left. reflexivity.
        -- apply Hpre. right. exact Hx.
Qed.

(** On a view without valid rows the maximum is the placeholder record (0.0
    and "-"), with no exception.  Otherwise, when no valid row holds NaN, it
    is the record of a valid row whose congestion is strictly above every
    valid row before it and at or above every valid row after it: the first
    row that attains the maximum. *)
Theorem max_congestion_is_first_maximum (df : list LongRecord) :
  (valid df = [] ->
   get_max_congestion_info df
   = OK {| MaxInfo.max_value := 0%float; MaxInfo.time_slot := "-";
           MaxInfo.station_name := "-"; MaxInfo.line := "-";
           MaxInfo.direction := "-"; MaxInfo.weekday := "-" |})
  /\ (valid_rows_numeric df -> valid df <> [] ->
      exists pre r post,
        valid df = pre ++ r :: post
        /\ get_max_congestion_info df = OK (info_of r)
        /\ (forall x, In x pre ->
              PrimFloat.ltb (congestion x) (congestion r) = true)
        /\ (forall x, In x post ->
              PrimFloat.leb (congestion x) (congestion r) = true)).
Proof.
  unfold get_max_congestion_info. split.
  - intros ->. reflexivity.
  - intros Hnum Hne. unfold valid_rows_numeric in Hnum.
    destruct (valid df) as [|r0 rs] eqn:Ev; [congruence|]. cbn [List.length Nat.eqb].
    unfold idxmax_row.
    assert (Hr0 : PrimFloat.is_nan (congestion r0) = false)
      by (apply Hnum; left; reflexivity).
    cbn [forallb]. rewrite Hr0. cbn [andb].
    destruct (argmax_by_first_max (fun x => fillna_neg_inf (congestion x)) rs r0)
      as [pre [post [Heq [Hpre Hpost]]]].
    { intros x Hx. unfold fillna_neg_inf. rewrite (Hnum x Hx). apply Hnum, Hx. }
    set (r := argmax_by (fun x => fillna_neg_inf (congestion x)) r0 rs) in *.
    assert (Hfill : forall x, In x (r0 :: rs) ->
                      fillna_neg_inf (congestion x) = congestion x).
    { intros x Hx. unfold fillna_neg_inf. rewrite (Hnum x Hx). reflexivity. }
    assert (Hr : In r (r0 :: rs)).
    { rewrite Heq. apply in_or_app. right. left. reflexivity. }
    exists pre, r, post. split; [exact Heq|]. split; [reflexivity|]. split.
    + intros x Hx. rewrite <- (Hfill x), <- (Hfill r); [apply Hpre, Hx|exact Hr|].
      rewrite Heq. apply in_or_app. tauto.
    + intros x Hx. rewrite <- (Hfill x), <- (Hfill r); [apply Hpost, Hx|exact Hr|].
      rewrite Heq. apply in_or_app. right. right. exact Hx.
Qed.

Lemma sample_view_numeric : valid_rows_numeric sample_view.
Proof.
  intros r Hr. simpl in Hr.
  repeat (destruct Hr as [<-|Hr]; [reflexivity|]). contradiction.
Defined.

Lemma max_congestion_is_first_maximum_witness :
  exists pre r post,
    valid sample_view = pre ++ r :: post
    /\ get_max_congestion_info sample_view = OK (info_of r)
    /\ (forall x, In x pre ->
          PrimFloat.ltb (congestion x) (congestion r) = true)
    /\ (forall x, In x post ->
          PrimFloat.leb (congestion x) (congestion r) = true).
Proof.
  apply (max_congestion_is_first_maximum sample_view).
  - exact sample_view_numeric.
  - discriminate.
Defined.

(** ** metrics.py: the peak hours *)

Lemma filter_none {A : Type} (keep : A -> bool) (l : list A) :
  Forall (fun a => keep a = false) l -> filter keep l = [].
Proof.
  induction 1 as [|a l Ha _ IH]; simpl; [reflexivity|]. rewrite Ha. exact IH.
Qed.

Lemma reduce_std_short (sum : list float -> float) (v : list float) :
  (List.length v <= 1)%nat -> reduce_std sum v = nan.
Proof.
  intros H. unfold reduce_std.
  assert (Hd : (List.length (dropna v) <= 1)%nat).
  { unfold dropna. pose proof (filter_length_le notna v). lia. }
  destruct (List.length (dropna v) <=? 1)%nat eqn:E; [reflexivity|].
  apply Nat.leb_gt in E. lia.
Qed.

(** With at most one valid row and no threshold given, no slot is a peak:
    the default threshold, mean plus sample standard deviation, is NaN, and
    no mean compares at or above NaN. *)
Theorem peak_hours_need_two_rows (series_sum group_sum : list float -> float)
    (df : list LongRecord) :
  (List.length (valid df) <= 1)%nat ->
  get_peak_hours series_sum group_sum df None = [].
Proof.
  intros H. unfold get_peak_hours.
  destruct (List.length (valid df) =? 0)%nat; [reflexivity|]. cbv zeta.
  rewrite reduce_std_short by (rewrite List.length_map; exact H).
  rewrite (filter_none _ (time_stats_of group_sum (valid df))).
  - reflexivity.
  - apply Forall_forall. intros s _. apply float_leb_nan_l.
    apply float_add_nan_r. reflexivity.
Qed.

Lemma peak_hours_need_two_rows_witness :
  get_peak_hours sample_sum sample_sum sample_night None = [].
Proof.
  apply (peak_hours_need_two_rows sample_sum sample_sum sample_night).
  simpl. lia.
Defined.

Lemma groupby_keys {A K : Type} (cmp : K -> K -> comparison) (key : A -> K)
    (df : list A) :
  map fst (groupby cmp key df) = sort_values cmp (unique cmp (map key df)).
Proof. unfold groupby. rewrite map_map. simpl. apply map_id. Qed.

Lemma NoDup_map_filter {A B : Type} (f : A -> B) (keep : A -> bool) (l : list A) :
  NoDup (map f l) -> NoDup (map f (filter keep l)).
Proof.
  induction l as [|a l IH]; simpl; intros H; [constructor|].
  inversion H as [|? ? Hnotin Hnd]; subst.
  destruct (keep a); simpl; [|apply IH, Hnd].
  constructor; [|apply IH, Hnd].
  rewrite in_map_iff in *. intros [x [Hx Hin]]. apply Hnotin.
  exists x. apply filter_In in Hin. tauto.
Qed.

(** With a threshold given, every slot returned has a mean congestion at or
    above it, is the time slot of a valid row, and carries the mean of the
    valid rows of that slot; no slot is returned twice. *)
Theorem peak_hours_reach_threshold (series_sum group_sum : list float -> float)
    (df : list LongRecord) (threshold : float) :
  let peaks := get_peak_hours series_sum group_sum df (Some threshold) in
  NoDup (map (fun p => fst (fst p)) peaks)
  /\ forall slot avg mx, In (slot, avg, mx) peaks ->
       PrimFloat.leb threshold avg = true
       /\ (exists r, In r (valid df) /\ time_slot r = slot)
       /\ avg = reduce_mean group_sum
                  (map congestion
                     (filter (fun r => String.eqb slot (time_slot r)) (valid df))).
Proof.
  cbv zeta. unfold get_peak_hours.
  destruct (List.length (valid df) =? 0)%nat;
    [split; [constructor|intros ? ? ? []]|].
  set (stats := time_stats_of group_sum (valid df)).
  set (peaks := filter (fun s => PrimFloat.leb threshold (avg_congestion s)) stats).
  assert (Hperm : Permutation
                    (sort_values cmp_stat_order
                       (filter (fun s => negb (is_none (stat_order s))) peaks)
                     ++ filter (fun s => is_none (stat_order s)) peaks) peaks).
  { eapply perm_trans;
      [|apply (filter_split_perm (fun s => is_none (stat_order s)))].
    apply Permutation_app_tail, Permutation_sym, sort_values_perm. }
  assert (Hslots : map stat_slot stats
                   = sort_values String.compare
                       (unique String.compare (map time_slot (valid df)))).
  { unfold stats, time_stats_of. rewrite map_map. simpl.
    apply groupby_keys. }
  split.
  - rewrite map_map. simpl.
    eapply Permutation_NoDup;
      [apply Permutation_map, Permutation_sym, Hperm|].
    apply NoDup_map_filter. change (NoDup (map stat_slot stats)). rewrite Hslots.
    apply (sorted_unique_spec (map time_slot (valid df))).
  - intros slot avg mx Hin. apply in_map_iff in Hin.
    destruct Hin as [s [Hs Hin]]. injection Hs as <- <- <-.
    eapply Permutation_in in Hin; [|exact Hperm].
    apply filter_In in Hin. destruct Hin as [Hin Hle].
    split; [exact Hle|].
    unfold stats, time_stats_of in Hin. apply in_map_iff in Hin.
    destruct Hin as [g [<- Hg]]. simpl.
    unfold groupby in Hg. apply in_map_iff in Hg.
    destruct Hg as [k [<- Hk]]. simpl. split.
    + apply (sorted_unique_spec (map time_slot (valid df))) in Hk.
      apply in_map_iff in Hk. destruct Hk as [r [Hr Hin]]. eauto.
    + do 2 f_equal. apply filter_ext. intros r. apply same_key_eqb.
Qed.

(** ** metrics.py: the Top-N ranking *)

Lemma valid_filter (keep : LongRecord -> bool) (df : list LongRecord) :
  valid (filter keep df) = filter keep (valid df).
Proof.
  unfold valid. rewrite !filter_filter. apply filter_ext.
  intros r. apply andb_comm.
Qed.

Lemma nlargest_nil {K : Type} (n : Z) : @nlargest K n [] = [].
Proof. unfold nlargest. destruct (n <=? 0)%Z; [reflexivity|]. simpl. apply firstn_nil. Qed.

(** Giving the ranking a time range is the same as ranking the view
    filtered to that range beforehand. *)
Theorem top_n_time_range_is_prefilter (group_sum : list float -> float)
    (df : list LongRecord) (n : Z) (time_range : Z * Z) (aggregate : string) :
  get_top_n_stations group_sum df n (Some time_range) aggregate
  = get_top_n_stations group_sum
      (filter_data df None None None None (Some time_range)) n None aggregate.
Proof.
  change (filter_data df None None None None (Some time_range))
    with (filter (in_range time_range) df).
  unfold get_top_n_stations. rewrite valid_filter.
  destruct (List.length (valid df) =? 0)%nat eqn:E1.
  - apply length_zero_iff_nil in E1. rewrite E1. reflexivity.
  - destruct (List.length (filter (in_range time_range) (valid df)) =? 0)%nat eqn:E2;
      [|reflexivity].
    apply length_zero_iff_nil in E2. rewrite E2. cbn.
    destruct (String.eqb aggregate "max"); [apply nlargest_nil|].
    destruct (String.eqb aggregate "mean"); [apply nlargest_nil|].
    destruct (String.eqb aggregate "sum"); apply nlargest_nil.
Qed.

Lemma cmp_station_key (a b : string * string) : cmp_station a b = Eq <-> a = b.
Proof.
  destruct a as [s x], b as [t y]. unfold cmp_station. simpl. split.
  - destruct (String.compare s t) eqn:E; simpl; try discriminate.
    intros H. apply String.compare_eq_iff in E, H. congruence.
  - intros H. inversion H; subst. rewrite !string_compare_refl. reflexivity.
Qed.

Lemma unique_same_members {K : Type} (cmp : K -> K -> comparison)
    (cmp_eq : forall a b, cmp a b = Eq <-> a = b) (l : list K) (k : K) :
  In k (unique cmp l) <-> In k l.
Proof.
  pose proof (unique_keys cmp (fun x => x) cmp_eq l k) as E.
  rewrite !map_id in E. exact E.
Qed.

Lemma nlargest_perm {K : Type} (s : list (K * float)) :
  Permutation
    (sort_values (fun a b => fcmp (snd b) (snd a))
       (filter (fun e => notna (snd e)) s)
     ++ filter (fun e => PrimFloat.is_nan (snd e)) s) s.
Proof.
  eapply perm_trans;
    [|apply (filter_split_perm (fun e => PrimFloat.is_nan (snd e)))].
  apply Permutation_app_tail, Permutation_sym, sort_values_perm.
Qed.

Lemma In_firstn_list {A : Type} (n : nat) (l : list A) (a : A) :
  In a (firstn n l) -> In a l.
Proof.
  intros H. rewrite <- (firstn_skipn n l). apply in_or_app. left. exact H.
Qed.

Lemma NoDup_firstn {A : Type} (n : nat) (l : list A) :
  NoDup l -> NoDup (firstn n l).
Proof.
  intros H. rewrite <- (firstn_skipn n l) in H.
  apply NoDup_app_remove_r in H. exact H.
Qed.

Lemma top_n_unfold (group_sum : list float -> float) (df : list LongRecord)
    (n : Z) (time_range : option (Z * Z)) (aggregate : string) :
  exists f : list float -> float,
    get_top_n_stations group_sum df n time_range aggregate
    = if (List.length (valid df) =? 0)%nat then []
      else nlargest n
             (map (fun g => (fst g, f (map congestion (snd g))))
                  (groupby cmp_station station_key (ranked_rows df time_range))).
Proof.
  unfold get_top_n_stations, ranked_rows.
  destruct (String.eqb aggregate "max"); [exists reduce_max; reflexivity|].
  destruct (String.eqb aggregate "mean");
    [exists (reduce_mean group_sum); reflexivity|].
  destruct (String.eqb aggregate "sum");
    [exists (reduce_sum group_sum); reflexivity|].
  exists reduce_max. reflexivity.
Qed.

Lemma ranked_rows_valid (df : list LongRecord) (time_range : option (Z * Z))
    (r : LongRecord) :
  In r (ranked_rows df time_range)
  <-> In r (valid df)
      /\ forall lo hi, time_range = Some (lo, hi) -> (lo <= time_order r <= hi)%Z.
Proof.
  unfold ranked_rows. destruct time_range as [[lo hi]|].
  - rewrite filter_In. unfold in_range. rewrite andb_true_iff, !Z.leb_le. split.
    + intros [H1 H2]. split; [exact H1|]. intros lo' hi' E. inversion E; subst. lia.
    + intros [H1 H2]. split; [exact H1|]. specialize (H2 lo hi eq_refl). lia.
  - split; [|tauto]. intros H. split; [exact H|]. discriminate.
Qed.

(** The ranking has one entry per (station, line) pair of the valid rows in
    range, up to [n] of them (all of them when [n] is not smaller than
    their number, none when [n <= 0]); no pair appears twice, and every
    entry belongs to a valid row in range. *)
Theorem top_n_entries (group_sum : list float -> float) (df : list LongRecord)
    (n : Z) (time_range : option (Z * Z)) (aggregate : string) :
  let ranking := get_top_n_stations group_sum df n time_range aggregate in
  List.length ranking
  = Nat.min (Z.to_nat n)
      (List.length (unique cmp_station (map station_key (ranked_rows df time_range))))
  /\ NoDup (map fst ranking)
  /\ forall k v, In (k, v) ranking ->
       exists r, In r (valid df) /\ station_key r = k
                 /\ forall lo hi, time_range = Some (lo, hi) ->
                      (lo <= time_order r <= hi)%Z.
Proof.
  cbv zeta.
  destruct (top_n_unfold group_sum df n time_range aggregate) as [f ->].
  destruct (List.length (valid df) =? 0)%nat eqn:E.
  - apply length_zero_iff_nil in E.
    assert (Hr : ranked_rows df time_range = []).
    { unfold ranked_rows. rewrite E. destruct time_range; reflexivity. }
    rewrite Hr. simpl. rewrite Nat.min_0_r.
    split; [reflexivity|]. split; [constructor|]. intros k v [].
  - set (groups := groupby cmp_station station_key (ranked_rows df time_range)).
    set (s := map (fun g => (fst g, f (map congestion (snd g)))) groups).
    assert (Hkeys : map fst s
                    = sort_values cmp_station
                        (unique cmp_station
                           (map station_key (ranked_rows df time_range)))).
    { unfold s. rewrite map_map. simpl. apply groupby_keys. }
    assert (Hnd : NoDup (map fst s)).
    { rewrite Hkeys. eapply Permutation_NoDup; [apply sort_values_perm|].
      rewrite <- (map_id (unique cmp_station _)).
      apply (unique_NoDup cmp_station (fun k => k) cmp_station_key). }
    assert (Hlen : List.length s
                   = List.length (unique cmp_station
                                    (map station_key (ranked_rows df time_range)))).
    { rewrite <- (List.length_map fst s), Hkeys. apply sort_values_length. }
    unfold nlargest. destruct (Z.leb_spec n 0) as [Hn|Hn].
    + replace (Z.to_nat n) with O by lia. simpl.
      split; [reflexivity|]. split; [constructor|]. intros k v [].
    + split; [|split].
      * rewrite List.length_firstn, (Permutation_length (nlargest_perm s)), Hlen.
        reflexivity.
      * rewrite <- firstn_map. apply NoDup_firstn.
        eapply Permutation_NoDup;
          [apply Permutation_map, Permutation_sym, nlargest_perm|exact Hnd].
      * intros k v Hin. apply In_firstn_list in Hin.
        eapply Permutation_in in Hin; [|apply nlargest_perm].
        assert (Hk : In k (map fst s)) by (apply in_map_iff; exists (k, v); auto).
        rewrite Hkeys in Hk.
        eapply Permutation_in in Hk; [|apply Permutation_sym, sort_values_perm].
        apply (proj1 (unique_same_members cmp_station cmp_station_key _ k)) in Hk.
        apply in_map_iff in Hk.
        destruct Hk as [r [Hr Hin']]. apply ranked_rows_valid in Hin'.
        exists r. tauto.
Qed.

Lemma float_ltb_nan_r (a b : float) :
  PrimFloat.is_nan b = true -> PrimFloat.ltb a b = false.
Proof.
  rewrite is_nan_spec, FloatAxioms.ltb_spec. intros ->. unfold SFltb.
  destruct (Prim2SF a); reflexivity.
Qed.

Lemma Sorted_weaken {A : Type} (R R' : A -> A -> Prop) (l : list A) :
  (forall a b, R a b -> R' a b) -> Sorted R l -> Sorted R' l.
Proof.
  intros H. induction 1 as [|a l Hs IH Hhd]; constructor; [exact IH|].
  destruct Hhd; constructor. auto.
Qed.

Lemma Sorted_any {A : Type} (R : A -> A -> Prop) (l : list A) :
  (forall a b, In b l -> R a b) -> Sorted R l.
Proof.
  induction l as [|x l IH]; intros H; constructor.
  - apply IH. intros a b Hb. apply H. right. exact Hb.
  - destruct l; constructor. apply H. right. left. reflexivity.
Qed.

Lemma Sorted_app_any {A : Type} (R : A -> A -> Prop) (l1 l2 : list A) :
  Sorted R l1 -> (forall a b, In b l2 -> R a b) -> Sorted R (l1 ++ l2).
Proof.
  intros H1 H2. induction H1 as [|a l Hs IH Hhd]; simpl.
  - apply Sorted_any, H2.
  - constructor; [exact IH|]. destruct Hhd as [|b l Hab]; simpl.
    + destruct l2; constructor. apply H2. left. reflexivity.
    + constructor. exact Hab.
Qed.

Lemma Sorted_firstn {A : Type} (R : A -> A -> Prop) (n : nat) (l : list A) :
  Sorted R l -> Sorted R (firstn n l).
Proof.
  revert l. induction n as [|n IH]; intros l H; [constructor|].
  destruct H as [|a l Hs Hhd]; simpl; [constructor|].
  constructor; [apply IH, Hs|].
  destruct Hhd; [rewrite firstn_nil; constructor|].
  destruct n; simpl; constructor. assumption.
Qed.

(** The ranking is in descending order of the aggregated value: no entry
    is followed by one with a strictly greater value (NaN values, if any,
    come last). *)
Theorem top_n_descending (group_sum : list float -> float) (df : list LongRecord)
    (n : Z) (time_range : option (Z * Z)) (aggregate : string) :
  Sorted (fun a b => PrimFloat.ltb (snd a) (snd b) = false)
         (get_top_n_stations group_sum df n time_range aggregate).
Proof.
  destruct (top_n_unfold group_sum df n time_range aggregate) as [f ->].
  destruct (List.length (valid df) =? 0)%nat; [constructor|].
  unfold nlargest. destruct (n <=? 0)%Z; [constructor|].
  apply Sorted_firstn, Sorted_app_any.
  - eapply Sorted_weaken;
      [|apply (sort_values_sorted (fun a b => fcmp (snd b) (snd a)))].
    + intros a b H. apply fcmp_not_gt. exact H.
    + intros a b. apply fcmp_antisym.
  - intros a b Hb. apply filter_In in Hb. apply float_ltb_nan_r. tauto.
Qed.

(** ** metrics.py: the summary *)

Lemma fold_fmax_ge (xs : list float) (x : float) :
  (forall y, In y (x :: xs) -> PrimFloat.is_nan y = false) ->
  PrimFloat.is_nan (fold_left fmax xs x) = false
  /\ forall y, In y (x :: xs) -> PrimFloat.leb y (fold_left fmax xs x) = true.
Proof.
  revert x. induction xs as [|z xs IH]; intros x Hnum.
  - simpl. split; [apply Hnum; left; reflexivity|].
    intros y [<-|[]]. apply float_leb_refl, Hnum. left. reflexivity.
  - cbn [fold_left].
    assert (Hx : PrimFloat.is_nan x = false) by (apply Hnum; simpl; tauto).
    assert (Hz : PrimFloat.is_nan z = false) by (apply Hnum; simpl; tauto).
    assert (Hm : PrimFloat.is_nan (fmax x z) = false
                 /\ PrimFloat.leb x (fmax x z) = true
                 /\ PrimFloat.leb z (fmax x z) = true).
    { unfold fmax. destruct (PrimFloat.ltb x z) eqn:E.
      - split; [exact Hz|]. split; [apply float_ltb_leb, E|apply float_leb_refl, Hz].
      - split; [exact Hx|]. split; [apply float_leb_refl, Hx|].
        apply float_not_ltb_leb; assumption. }
    destruct Hm as [Hm [Hxm Hzm]].
    destruct (IH (fmax x z)) as [Hnan Hge].
    { intros y [<-|Hy]; [exact Hm|]. apply Hnum. simpl. tauto. }
    split; [exact Hnan|].
    intros y [<-|[<-|Hy]].
    + eapply float_leb_trans; [exact Hxm|]. apply Hge. left. reflexivity.
    + eapply float_leb_trans; [exact Hzm|]. apply Hge. left. reflexivity.
    + apply Hge. right. exact Hy.
Qed.

Lemma fold_fmin_le (xs : list float) (x : float) :
  (forall y, In y (x :: xs) -> PrimFloat.is_nan y = false) ->
  PrimFloat.is_nan (fold_left fmin xs x) = false
  /\ forall y, In y (x :: xs) -> PrimFloat.leb (fold_left fmin xs x) y = true.
Proof.
  revert x. induction xs as [|z xs IH]; intros x Hnum.
  - simpl. split; [apply Hnum; left; reflexivity|].
    intros y [<-|[]]. apply float_leb_refl, Hnum. left. reflexivity.
  - cbn [fold_left].
    assert (Hx : PrimFloat.is_nan x = false) by (apply Hnum; simpl; tauto).
    assert (Hz : PrimFloat.is_nan z = false) by (apply Hnum; simpl; tauto).
    assert (Hm : PrimFloat.is_nan (fmin x z) = false
                 /\ PrimFloat.leb (fmin x z) x = true
                 /\ PrimFloat.leb (fmin x z) z = true).
    { unfold fmin. destruct (PrimFloat.ltb z x) eqn:E.
      - split; [exact Hz|]. split; [apply float_ltb_leb, E|apply float_leb_refl, Hz].
      - split; [exact Hx|]. split; [apply float_leb_refl, Hx|].
        apply float_not_ltb_leb; assumption. }
    destruct Hm as [Hm [Hxm Hzm]].
    destruct (IH (fmin x z)) as [Hnan Hle].
    { intros y [<-|Hy]; [exact Hm|]. apply Hnum. simpl. tauto. }
    split; [exact Hnan|].
    intros y [<-|[<-|Hy]].
    + eapply float_leb_trans; [|exact Hxm]. apply Hle. left. reflexivity.
    + eapply float_leb_trans; [|exact Hzm]. apply Hle. left. reflexivity.
    + apply Hle. right. exact Hy.
Qed.

Lemma dropna_numeric (v : list float) (y : float) :
  In y (dropna v) <-> In y v /\ PrimFloat.is_nan y = false.
Proof.
  unfold dropna, notna. rewrite filter_In, negb_true_iff. tauto.
Qed.

(** Every valid congestion value that is a number lies between the [min]
    and the [max] of the summary. *)
Theorem stats_min_max_bound (series_sum : list float -> float)
    (df : list LongRecord) (r : LongRecord) :
  In r (valid df) ->
  PrimFloat.is_nan (congestion r) = false ->
  PrimFloat.leb (Stats.min (get_congestion_stats series_sum df)) (congestion r) = true
  /\ PrimFloat.leb (congestion r) (Stats.max (get_congestion_stats series_sum df)) = true.
Proof.
  intros Hr Hnum. unfold get_congestion_stats.
  destruct (List.length (valid df) =? 0)%nat eqn:E.
  { apply length_zero_iff_nil in E. rewrite E in Hr. contradiction. }
  cbn [Stats.min Stats.max].
  assert (Hin : In (congestion r) (dropna (map congestion (valid df)))).
  { apply dropna_numeric. split; [apply in_map, Hr|exact Hnum]. }
  unfold reduce_min, reduce_max.
  destruct (dropna (map congestion (valid df))) as [|x xs] eqn:Ed; [contradiction|].
  assert (Hall : forall y, In y (x :: xs) -> PrimFloat.is_nan y = false).
  { intros y Hy. rewrite <- Ed in Hy. apply dropna_numeric in Hy. tauto. }
  split.
  - apply (fold_fmin_le xs x Hall), Hin.
  - apply (fold_fmax_ge xs x Hall), Hin.
Qed.

Lemma stats_min_max_bound_witness :
  PrimFloat.leb (Stats.min (get_congestion_stats sample_sum sample_view)) 80 = true
  /\ PrimFloat.leb 80 (Stats.max (get_congestion_stats sample_sum sample_view)) = true.
Proof.
  apply (stats_min_max_bound sample_sum sample_view
           (sample_record "서울역" "1호선" "07:00" 2 80%float 7 false)).
  - simpl. tauto.
  - reflexivity.
Defined.

(** ** data.py as the dashboard calls it *)

Lemma mem_In (s : string) (l : list string) : mem s l = true <-> In s l.
Proof.
  unfold mem. rewrite existsb_exists. split.
  - intros [x [Hx Hs]]. apply String.eqb_eq in Hs. subst. exact Hx.
  - intros H. exists s. split; [exact H|apply String.eqb_refl].
Qed.

Lemma order_of_determined (df : list LongRecord) (r : LongRecord) :
  slot_determines_order df -> In r df ->
  order_of (get_time_order_mapping df) (time_slot r) = OK (time_order r).
Proof.
  intros Hdet Hr.
  destruct (order_of_found (get_time_order_mapping df) (time_slot r) (time_order r))
    as [v Hv]; [apply mapping_pairs; eauto|].
  rewrite Hv. f_equal. apply order_of_In, mapping_pairs in Hv.
  destruct Hv as [r' [Hr' [Hslot <-]]]. apply Hdet; assumption.
Qed.

Lemma strongly_sorted_nth {A : Type} (R : A -> A -> Prop) (l : list A)
    (i j : nat) (a b : A) :
  StronglySorted R l -> (i < j)%nat ->
  nth_error l i = Some a -> nth_error l j = Some b -> R a b.
Proof.
  intros H. revert i j. induction H as [|x l Hs IH Hall]; intros i j Hij Hi Hj.
  - destruct i; discriminate.
  - destruct j as [|j]; [lia|]. simpl in Hj. destruct i as [|i].
    + simpl in Hi. injection Hi as <-. rewrite Forall_forall in Hall.
      apply Hall. eapply nth_error_In, Hj.
    + simpl in Hi. apply (IH i j); [lia|assumption|assumption].
Qed.

Lemma first_rows_sorted (df : list LongRecord) :
  StronglySorted (fun a b => (time_order a <= time_order b)%Z)
                 (sort_values cmp_order (unique cmp_slot df)).
Proof.
  assert (H : StronglySorted (fun a b => le_of cmp_order a b = true)
                (sort_values cmp_order (unique cmp_slot df))).
  { apply (sort_values_strongly_sorted cmp_order
             (fun a b => Z.compare_antisym (time_order b) (time_order a))
             (fun _ => True)).
    - intros a b c _ _ _. apply order_like_le_trans.
      apply (order_like_on Z.compare time_order), order_like_Z.
    - apply Forall_forall. intros; exact I. }
  induction H as [|a l Hs IH Hall]; constructor; [exact IH|].
  eapply Forall_impl; [|exact Hall]. intros b Hab. cbv beta in Hab.
  unfold le_of, cmp_order in Hab.
  destruct (Z.compare_spec (time_order a) (time_order b)); try lia; discriminate.
Qed.

(** With the weekday left at '전체', every offered line and direction
    selected, no station chosen and the time range running from the first
    to the last offered slot, the filter keeps the whole frame, provided
    each time slot has one time order. *)
Theorem everything_selected_keeps_all_rows (df : list LongRecord)
    (first last : string) (lo hi : Z) :
  slot_determines_order df ->
  nth_error (FilterOptions.time_slots (get_filter_options df)) 0 = Some first ->
  nth_error (FilterOptions.time_slots (get_filter_options df))
    (List.length (FilterOptions.time_slots (get_filter_options df)) - 1) = Some last ->
  order_of (get_time_order_mapping df) first = OK lo ->
  order_of (get_time_order_mapping df) last = OK hi ->
  filter_data df (Some "전체")
    (Some (FilterOptions.lines (get_filter_options df))) None
    (Some (FilterOptions.directions (get_filter_options df)))
    (Some (lo, hi))
  = df.
Proof.
  intros Hdet Hfirst Hlast Hlo Hhi.
  rewrite filter_data_passes. apply filter_keeps_all, Forall_forall.
  intros r Hr. cbn [get_filter_options FilterOptions.time_slots
                    FilterOptions.lines FilterOptions.directions] in *.
  set (firsts := sort_values cmp_order (unique cmp_slot df)) in *.
  assert (Hsub : forall f, In f firsts -> In f df).
  { intros f Hf. apply (unique_incl cmp_slot df).
    eapply Permutation_in; [apply Permutation_sym, sort_values_perm|exact Hf]. }
  rewrite List.length_map in Hlast. rewrite nth_error_map in Hfirst, Hlast.
  destruct (nth_error firsts 0) as [f0|] eqn:E0; [|discriminate].
  destruct (nth_error firsts (List.length firsts - 1)) as [fl|] eqn:El;
    [|discriminate].
  injection Hfirst as <-. injection Hlast as <-.
  rewrite (order_of_determined df f0 Hdet) in Hlo
    by (apply Hsub; eapply nth_error_In, E0).
  rewrite (order_of_determined df fl Hdet) in Hhi
    by (apply Hsub; eapply nth_error_In, El).
  injection Hlo as <-. injection Hhi as <-.
  assert (Hf : exists f, In f firsts /\ time_slot f = time_slot r).
  { assert (H : In (time_slot r) (map time_slot firsts)).
    { eapply Permutation_in; [apply Permutation_map, sort_values_perm|].
      apply (unique_keys cmp_slot time_slot cmp_slot_key), in_map, Hr. }
    apply in_map_iff in H. destruct H as [f [Hs Hin]]. eauto. }
  destruct Hf as [f [Hf Hslot]].
  assert (Hord : time_order r = time_order f).
  { symmetry. apply Hdet; [apply Hsub, Hf|exact Hr|exact Hslot]. }
  destruct (In_nth_error _ _ Hf) as [j Hj].
  assert (Hjlen : (j < List.length firsts)%nat)
    by (apply nth_error_Some; congruence).
  assert (Hlow : (time_order f0 <= time_order f)%Z).
  { destruct j as [|j]; [rewrite E0 in Hj; injection Hj as <-; lia|].
    apply (strongly_sorted_nth _ firsts 0 (S j) f0 f (first_rows_sorted df));
      [lia|exact E0|exact Hj]. }
  assert (Hhigh : (time_order f <= time_order fl)%Z).
  { destruct (Nat.eq_dec j (List.length firsts - 1)) as [->|Hne];
      [rewrite El in Hj; injection Hj as <-; lia|].
    apply (strongly_sorted_nth _ firsts j (List.length firsts - 1) f fl
             (first_rows_sorted df)); [lia|exact Hj|exact El]. }
  unfold passes. rewrite !andb_true_iff.
  split; [split; [split; [split; [reflexivity|]|reflexivity]|]|].
  - destruct (sorted_unique (map (fun r0 => line (ids r0)) df)) eqn:E;
      [reflexivity|]. rewrite <- E. apply mem_In, sorted_unique_spec.
    apply (in_map (fun r0 => line (ids r0))), Hr.
  - destruct (sorted_unique (map (fun r0 => direction (ids r0)) df)) eqn:E;
      [reflexivity|]. rewrite <- E. apply mem_In, sorted_unique_spec.
    apply (in_map (fun r0 => direction (ids r0))), Hr.
  - unfold in_range. apply andb_true_iff. rewrite !Z.leb_le. lia.
Qed.

Lemma everything_selected_keeps_all_rows_witness :
  filter_data sample_view (Some "전체")
    (Some (FilterOptions.lines (get_filter_options sample_view))) None
    (Some (FilterOptions.directions (get_filter_options sample_view)))
    (Some (0, 4)%Z)
  = sample_view.
Proof.
  apply (everything_selected_keeps_all_rows sample_view "05:30" "00:30" 0 4
           sample_view_slot_determines_order); vm_compute; reflexivity.
Defined.

(** ** etl.py: the validation report on what the job persists *)








Section ReportFacts.
Variable to_numeric : string -> float.




End ReportFacts.



